(** * The app-config validator of [platform/validation/validate.py]

    A shallow embedding of [AppConfigValidator]: the three-step pipeline of
    [validate] (load the YAML document, check it against the JSON schema,
    run the custom checks), the explanation helpers and the four custom
    checks, followed by the properties of the pipeline.

    Conventions of the embedding.
    - A parsed YAML/JSON document is a [value]; Python floats are IEEE
      binary64 numbers ([PrimFloat.float]), Python ints are [Z].
    - A Python exception is the [Raise] branch of [result]; code that runs
      statements in sequence is written with the bind of that monad, so the
      first exception wins, as in Python.
    - [yaml.safe_load] and [jsonschema.validate] are library code.  A file
      is represented by what [yaml.safe_load] makes of its text, and a
      validator object by what [jsonschema.validate] answers for its schema.
    - The file system, the location of the script and the iteration order
      of a set of strings are the [World] of a run; paths follow
      [pathlib.PurePosixPath].
    - An f-string is kept as the list of its literal and interpolated
      fragments ([text]): rendering a float ([str], [:.2f]) is a CPython
      builtin and is not re-implemented here. *)

From Stdlib Require Import ZArith List String Ascii Bool Lia Permutation.
From Stdlib Require Import PrimFloat FloatOps DecimalString.
Import ListNotations.
Open Scope string_scope.
Open Scope Z_scope.
Set Warnings "-register-all".

(* ================================================================== *)
(** ** Exceptions and results *)

Inductive exn : Type :=
| AttributeError      (* [.get] on something that is not a dict *)
| TypeError           (* wrong operand type, unhashable or not iterable *)
| IndexError          (* list index out of range *)
| ValueError          (* format code that the type does not know *)
| OverflowError       (* int too large to convert to float *)
| FileNotFoundError   (* [open] on a path that does not exist *)
| IsADirectoryError   (* [open] on a directory *)
| YAMLError (msg : string)
| SchemaError.        (* the schema itself is not a valid JSON schema *)

Inductive result (A : Type) : Type :=
| Ok (a : A)
| Raise (e : exn).
Arguments Ok {A} a.
Arguments Raise {A} e.

Definition bind {A B : Type} (m : result A) (k : A -> result B) : result B :=
  match m with
  | Ok a => k a
  | Raise e => Raise e
  end.

Notation "x <- m ;; k" := (bind m (fun x => k))
  (at level 61, m at next level, right associativity).

Fixpoint mapM {A B : Type} (f : A -> result B) (l : list A) : result (list B) :=
  match l with
  | [] => Ok []
  | a :: r => b <- f a ;; bs <- mapM f r ;; Ok (b :: bs)
  end.

(* ================================================================== *)
(** ** Documents: the values [yaml.safe_load] and [json.load] produce *)

Inductive value : Type :=
| VNone
| VBool (b : bool)
| VInt (z : Z)
| VFloat (f : float)
| VStr (s : string)
| VList (l : list value)
| VDict (d : list (string * value)).

(** A dict is an association list read by its first binding of a key. *)
Fixpoint lookup (k : string) (d : list (string * value)) : option value :=
  match d with
  | [] => None
  | (k', v) :: r => if (k' =? k)%string then Some v else lookup k r
  end.

Definition has_key (k : string) (d : list (string * value)) : bool :=
  match lookup k d with Some _ => true | None => false end.

Definition dict_get (d : list (string * value)) (k : string) (default : value) : value :=
  match lookup k d with Some v => v | None => default end.

(** [o.get(k, default)]: only a dict has the method. *)
Definition py_get (o : value) (k : string) (default : value) : result value :=
  match o with
  | VDict d => Ok (dict_get d k default)
  | _ => Raise AttributeError
  end.

(** Truth value of an object in [if o:]. *)
Definition truthy (v : value) : bool :=
  match v with
  | VNone => false
  | VBool b => b
  | VInt z => negb (z =? 0)
  | VFloat f => negb (PrimFloat.eqb f 0%float)
  | VStr s => negb (s =? "")%string
  | VList l => match l with [] => false | _ => true end
  | VDict d => match d with [] => false | _ => true end
  end.

(** [for x in o]: a list yields its items, a dict its keys, a string its
    characters (here its bytes; the code only ever asks such an item for
    [.get], which no string has); the scalars are not iterable. *)
Fixpoint chars (s : string) : list value :=
  match s with
  | EmptyString => []
  | String c r => VStr (String c EmptyString) :: chars r
  end.

Definition py_iter (o : value) : result (list value) :=
  match o with
  | VList l => Ok l
  | VDict d => Ok (map (fun kv => VStr (fst kv)) d)
  | VStr s => Ok (chars s)
  | _ => Raise TypeError
  end.

(** [float == int], compared exactly as CPython does. *)
Definition float_eq_int (f : float) (z : Z) : bool :=
  match Prim2SF f with
  | SpecFloat.S754_zero _ => z =? 0
  | SpecFloat.S754_finite s m e =>
      let v := if s then Z.neg m else Z.pos m in
      if 0 <=? e then z =? v * 2 ^ e
      else (v mod 2 ^ (- e) =? 0) && (z =? v / 2 ^ (- e))
  | _ => false
  end.

Definition int_of_bool (b : bool) : Z := if b then 1 else 0.

(** [a == b] on the hashable values (a bool is the int 0 or 1). *)
Definition py_eq (a b : value) : bool :=
  match a, b with
  | VNone, VNone => true
  | VStr s, VStr t => (s =? t)%string
  | VBool x, VBool y => Bool.eqb x y
  | VBool x, VInt z | VInt z, VBool x => int_of_bool x =? z
  | VBool x, VFloat f | VFloat f, VBool x => float_eq_int f (int_of_bool x)
  | VInt x, VInt y => x =? y
  | VInt z, VFloat f | VFloat f, VInt z => float_eq_int f z
  | VFloat f, VFloat g => PrimFloat.eqb f g
  | _, _ => false
  end.

Definition hashable (v : value) : bool :=
  match v with
  | VList _ | VDict _ => false
  | _ => true
  end.

(** A set is the list of its distinct members, in the order they were
    added; the order in which Python iterates over it is [set_order] of
    the world. *)
Definition set_mem (v : value) (s : list value) : bool := existsb (py_eq v) s.

Definition set_add (s : list value) (v : value) : list value :=
  if set_mem v s then s else s ++ [v].

(** [v in s] hashes [v] first. *)
Definition py_in (v : value) (s : list value) : result bool :=
  if hashable v then Ok (set_mem v s) else Raise TypeError.

(* ================================================================== *)
(** ** Strings *)

(** [s.split(sep)] for a one-character separator. *)
Fixpoint split (sep : ascii) (s : string) : list string :=
  match s with
  | EmptyString => [EmptyString]
  | String c r =>
      if Ascii.eqb c sep then EmptyString :: split sep r
      else match split sep r with
           | [] => [String c EmptyString]
           | h :: t => String c h :: t
           end
  end.

(** [s.replace(a, b)] for one-character [a] and [b]. *)
Fixpoint replace (a b : ascii) (s : string) : string :=
  match s with
  | EmptyString => EmptyString
  | String c r => String (if Ascii.eqb c a then b else c) (replace a b r)
  end.

(** [str(n)] for an int. *)
Definition str_int (z : Z) : string := NilEmpty.string_of_int (Z.to_int z).

(** Text built by an f-string: literal pieces, [{v}] and [{v:.2f}]. *)
Inductive frag : Type :=
| Lit (s : string)
| Str (v : value)
| Fix2 (v : value).

Definition text : Type := list frag.

(** [sep.join(str(x) for x in l)], kept as fragments. *)
Fixpoint join_str (sep : string) (l : list value) : text :=
  match l with
  | [] => []
  | [v] => [Str v]
  | v :: r => Str v :: Lit sep :: join_str sep r
  end.

(** [sep.join(l)] needs every item to be a [str]. *)
Definition as_str (v : value) : result string :=
  match v with
  | VStr s => Ok s
  | _ => Raise TypeError
  end.

(* ================================================================== *)
(** ** Paths ([pathlib.PurePosixPath]) *)

Record Path : Type := {
  root : string;          (* the empty string, one slash or two slashes *)
  parts : list string     (* the components after the root *)
}.

Definition parse_root (s : string) : string :=
  match s with
  | String "/" (String "/" (String "/" _)) => "/"
  | String "/" (String "/" _) => "//"
  | String "/" _ => "/"
  | _ => ""
  end.

Definition is_component (s : string) : bool :=
  negb (s =? "")%string && negb (s =? ".")%string.

(** [Path(s)]: empty and [.] components are dropped. *)
Definition parse_path (s : string) : Path :=
  {| root := parse_root s; parts := filter is_component (split "/" s) |}.

(** [p / s]: an absolute right operand replaces the left one. *)
Definition joinpath (p : Path) (s : string) : Path :=
  let q := parse_path s in
  if (root q =? "")%string
  then {| root := root p; parts := parts p ++ parts q |}
  else q.

Definition parent (p : Path) : Path :=
  {| root := root p; parts := removelast (parts p) |}.

(** [str(p)]. *)
Definition path_str (p : Path) : string :=
  match root p, parts p with
  | EmptyString, [] => "."
  | r, ps => r ++ String.concat "/" ps
  end.

(* ================================================================== *)
(** ** Diagnostics *)

(** One entry of the [errors] list.  The dicts the code builds do not all
    have the same keys: an absent key is [None]. *)
Record Diagnostic : Type := {
  error : text;
  details : option string;
  field : option string;
  why_this_matters : text;
  fix_ : text;                       (* key [fix] *)
  severity : string;
  docs_link : option string
}.

(** What the code reads of a [jsonschema.ValidationError]: the message,
    the path of keys and list indices to the offending node, the keyword
    that failed and the schema object that holds this keyword. *)
Inductive path_item : Type :=
| Key (s : string)
| Index (i : Z).

Record ValidationError : Type := {
  message : string;
  path : list path_item;
  validator : string;
  schema : list (string * value)
}.

(* ================================================================== *)
(** ** The world a run sees *)

Inductive yaml_outcome : Type :=
| YamlFails (msg : string)           (* [yaml.safe_load] raises [YAMLError] *)
| YamlDoc (v : value).

Inductive node : Type :=
| Directory
| File (content : yaml_outcome).

Record World : Type := {
  fs : string -> option node;                 (* by [str(path)] *)
  script_file : Path;                         (* [__file__] *)
  set_order : list string -> list string      (* iteration order of a set *)
}.

Definition exists_ (w : World) (p : Path) : bool :=
  match fs w (path_str p) with Some _ => true | None => false end.

(** [with open(p) as f: yaml.safe_load(f)]. *)
Definition open_and_load (w : World) (p : Path) : result value :=
  match fs w (path_str p) with
  | None => Raise FileNotFoundError
  | Some Directory => Raise IsADirectoryError
  | Some (File (YamlFails msg)) => Raise (YAMLError msg)
  | Some (File (YamlDoc v)) => Ok v
  end.

(** [jsonschema.validate(config, self.schema)] returns, raises a
    [ValidationError], or rejects the schema itself. *)
Inductive schema_outcome : Type :=
| Conforms
| Violates (e : ValidationError)
| SchemaInvalid.

Record AppConfigValidator : Type := {
  jsonschema_validate : value -> schema_outcome
}.

(* ================================================================== *)
(** ** Explanations of a schema violation *)

Definition explanations : list (string * string) :=
  [ ("app.name",
     "App name is used in all Azure resource names (e.g., rg-{name}-dev). Must be DNS-safe and unique across the platform.");
    ("app.team",
     "Team ownership is used for cost allocation and access control. Helps us track who owns what and how much each team spends.");
    ("app.region",
     "Azure region determines where your app runs. Affects latency and compliance requirements.");
    ("components.backend.cpu",
     "CPU allocation affects both performance and monthly costs. 1 core ≈ £20/month. Start low and scale up if needed.");
    ("components.backend.memory",
     "Memory allocation in GB. Affects cost (~£2.5/GB/month) and app performance. Most apps work fine with 1-2GB.");
    ("components.backend.port",
     "Port your backend listens on. Must match what your Dockerfile EXPOSEs. Used for health checks and routing.");
    ("components.database.enabled",
     "Deploying a database adds ~£25/month to costs but provides managed, backed-up storage.");
    ("environment",
     "Environment (dev/staging/prod) affects resource naming and potentially sizing. Helps organize deployments.") ].

Fixpoint assoc (k : string) (l : list (string * string)) : option string :=
  match l with
  | [] => None
  | (k', v) :: r => if (k' =? k)%string then Some v else assoc k r
  end.

Definition _get_field_explanation (field_path : string) : string :=
  match assoc field_path explanations with
  | Some e => e
  | None => "This field is required by the platform configuration"
  end.

Definition name_pattern : string := "^[a-z0-9-]{3,15}$".

Definition pattern_fix : text :=
  [Lit "Use only lowercase letters, numbers, and hyphens. Length must be 3-15 characters. Example: 'my-app' or 'api-service'"].

Definition required_fix (missing : string) : text :=
  [Lit ("Add the required field '" ++ missing ++ "' to your configuration")].

Definition enum_fix (allowed : list value) : text :=
  Lit "Value must be one of: " :: join_str ", " allowed.

Definition type_fix (expected_type : value) : text :=
  [Lit "This field must be a "; Str expected_type].

Definition bounds_fix (min_val max_val : value) : text :=
  [Lit "Value must be between "; Str min_val; Lit " and "; Str max_val].

Definition generic_fix : text :=
  [Lit "Check the schema documentation for correct format"].

(** [pattern == "^[a-z0-9-]{3,15}$"] *)
Definition is_name_pattern (pattern : value) : bool :=
  match pattern with
  | VStr s => (s =? name_pattern)%string
  | _ => false
  end.

(** [l[1]] *)
Definition second (l : list string) : result string :=
  match l with
  | _ :: x :: _ => Ok x
  | _ => Raise IndexError
  end.

Definition _get_fix_suggestion (e : ValidationError) : result text :=
  if has_key "pattern" (schema e)
     && is_name_pattern (dict_get (schema e) "pattern" VNone)
  then Ok pattern_fix
  else if (validator e =? "required")%string then
    missing <- second (split "'" (message e)) ;;
    Ok (required_fix missing)
  else if (validator e =? "enum")%string then
    allowed <- py_iter (dict_get (schema e) "enum" (VList [])) ;;
    Ok (enum_fix allowed)
  else if (validator e =? "type")%string then
    Ok (type_fix (dict_get (schema e) "type" VNone))
  else if has_key "minimum" (schema e) || has_key "maximum" (schema e) then
    Ok (bounds_fix (dict_get (schema e) "minimum" (VStr ""))
                   (dict_get (schema e) "maximum" (VStr "")))
  else Ok generic_fix.

Definition base_url : string := "platform/docs/configuration-reference.md".

Definition _get_docs_link (field_path : string) : string :=
  base_url ++ "#" ++ replace "." "-" field_path.

(** [str(p)] for an element of [error.path]. *)
Definition str_item (p : path_item) : string :=
  match p with
  | Key s => s
  | Index i => str_int i
  end.

(** [".".join(str(p) for p in error.path) if error.path else "root"] *)
Definition field_path_of (e : ValidationError) : string :=
  match path e with
  | [] => "root"
  | ps => String.concat "." (map str_item ps)
  end.

Definition _explain_validation_error (e : ValidationError) (config_path : Path)
  : result Diagnostic :=
  let field_path := field_path_of e in
  let explanation := _get_field_explanation field_path in
  fix_suggestion <- _get_fix_suggestion e ;;
  Ok {| error := [Lit (message e)];
        details := None;
        field := Some field_path;
        why_this_matters := [Lit explanation];
        fix_ := fix_suggestion;
        severity := "error";
        docs_link := Some (_get_docs_link field_path) |}.

(* ================================================================== *)
(** ** The custom checks *)

(** [config.get('components', {}).get(comp, {}).get(key, default)] *)
Definition component_get (config : value) (comp key : string) (default : value)
  : result value :=
  components <- py_get config "components" (VDict []) ;;
  c <- py_get components comp (VDict []) ;;
  py_get c key default.

(** [p / v]: the right operand has to be a [str]. *)
Definition py_joinpath (p : Path) (v : value) : result Path :=
  match v with
  | VStr s => Ok (joinpath p s)
  | _ => Raise TypeError
  end.

Definition backend_dockerfile_missing (dockerfile_path : Path) : Diagnostic :=
  {| error := [Lit ("Backend enabled but Dockerfile not found at "
                      ++ path_str dockerfile_path)];
     details := None;
     field := None;
     why_this_matters :=
       [Lit "We need a Dockerfile to build your backend container image. Without it, deployment will fail."];
     fix_ := [Lit ("Create " ++ path_str dockerfile_path
                     ++ " or set components.backend.enabled to false")];
     severity := "error";
     docs_link := Some "platform/docs/dockerfile-guide.md" |}.

Definition frontend_dockerfile_missing (dockerfile_path : Path) : Diagnostic :=
  {| error := [Lit ("Frontend enabled but Dockerfile not found at "
                      ++ path_str dockerfile_path)];
     details := None;
     field := None;
     why_this_matters :=
       [Lit "We need a Dockerfile to build your frontend container image"];
     fix_ := [Lit ("Create " ++ path_str dockerfile_path
                     ++ " or set components.frontend.enabled to false")];
     severity := "error";
     docs_link := None |}.

(** Checks 1 and 2 differ in the component, the default directory and the
    diagnostic. *)
Definition check_dockerfile (w : World) (config : value) (app_dir : Path)
    (comp default_dir : string) (missing : Path -> Diagnostic)
  : result (list Diagnostic) :=
  enabled <- component_get config comp "enabled" VNone ;;
  if truthy enabled then
    dir <- component_get config comp "directory" (VStr default_dir) ;;
    d <- py_joinpath app_dir dir ;;
    let dockerfile_path := joinpath d "Dockerfile" in
    if negb (exists_ w dockerfile_path)
    then Ok [missing dockerfile_path]
    else Ok []
  else Ok [].

(** [backend_cpu > 2.0]: an int is compared exactly, a bool is 0 or 1,
    anything else than a number is a [TypeError]. *)
Definition py_gt_2 (v : value) : result bool :=
  match v with
  | VBool b => Ok (2 <? int_of_bool b)
  | VInt z => Ok (2 <? z)
  | VFloat f => Ok (PrimFloat.ltb 2%float f)
  | _ => Raise TypeError
  end.

(** [backend_cpu * 20]: the product of a number, twenty copies of a
    string or a list.  The check only gets here with a number. *)
Fixpoint repeat_str (s : string) (n : nat) : string :=
  match n with
  | O => ""
  | S m => s ++ repeat_str s m
  end.

Definition py_mul_20 (v : value) : result value :=
  match v with
  | VBool b => Ok (VInt (int_of_bool b * 20))
  | VInt z => Ok (VInt (z * 20))
  | VFloat f => Ok (VFloat (PrimFloat.mul f 20%float))
  | VStr s => Ok (VStr (repeat_str s 20))
  | VList l => Ok (VList (List.concat (List.repeat l 20)))
  | VNone | VDict _ => Raise TypeError
  end.

(** [{x:.2f}]: an int is converted to a float first, which overflows from
    [2^1024 - 2^970] on. *)
Definition format_2f (x : value) : result frag :=
  match x with
  | VInt z =>
      if Z.abs z <? 2 ^ 1024 - 2 ^ 970 then Ok (Fix2 x) else Raise OverflowError
  | VBool _ | VFloat _ => Ok (Fix2 x)
  | VStr _ => Raise ValueError
  | VNone | VList _ | VDict _ => Raise TypeError
  end.

Definition high_cpu_fix : text :=
  [Lit "Reduce components.backend.cpu to 1.0 or 2.0 unless you have specific performance requirements"].

Definition high_cpu_warning (backend_cpu : value) (cost : frag) : Diagnostic :=
  {| error := [Lit "Backend CPU allocation is high: "; Str backend_cpu; Lit " cores"];
     details := None;
     field := None;
     why_this_matters :=
       [Lit "This will cost approximately £"; cost;
        Lit "/month just for CPU. Consider starting with 1-2 cores and scaling up if needed."];
     fix_ := high_cpu_fix;
     severity := "warning";
     docs_link := None |}.

Definition check_cpu (config : value) : result (list Diagnostic) :=
  backend_cpu <- component_get config "backend" "cpu" (VInt 0) ;;
  high <- py_gt_2 backend_cpu ;;
  if high then
    product <- py_mul_20 backend_cpu ;;
    cost <- format_2f product ;;
    Ok [high_cpu_warning backend_cpu cost]
  else Ok [].

(** [Path(__file__).parent.parent.parent / "apps/_registry.yml"] *)
Definition registry_path (w : World) : Path :=
  joinpath (parent (parent (parent (script_file w)))) "apps/_registry.yml".

Definition newline : string := String "010" "".

Definition team_not_registered (team : value) (teams : list string) : Diagnostic :=
  {| error := [Lit "Team '"; Str team; Lit "' not found in registry"];
     details := None;
     field := None;
     why_this_matters :=
       [Lit "Teams must be registered for cost allocation and access control. This prevents typos and ensures proper ownership."];
     fix_ := [Lit ("1. Add your team to apps/_registry.yml, OR" ++ newline
                     ++ "2. Use an existing team name: "
                     ++ String.concat ", " teams)];
     severity := "warning";
     docs_link := None |}.

(** One step of [{app.get('team') for app in ...}]: the member is hashed
    when it is added. *)
Definition team_of (app : value) : result value :=
  t <- py_get app "team" VNone ;;
  if hashable t then Ok t else Raise TypeError.

(** [config.get('app', {}).get('team')] *)
Definition app_team (config : value) : result value :=
  app <- py_get config "app" (VDict []) ;;
  py_get app "team" VNone.

(** The items of [registry.get('apps', [])]. *)
Definition registry_apps (registry : value) : result (list value) :=
  apps <- py_get registry "apps" (VList []) ;;
  py_iter apps.

(** [{app.get('team') for app in registry.get('apps', [])}] *)
Definition known_teams (registry : value) : result (list value) :=
  items <- registry_apps registry ;;
  members <- mapM team_of items ;;
  Ok (fold_left set_add members []).

Definition check_team (w : World) (config : value) : result (list Diagnostic) :=
  team <- app_team config ;;
  if truthy team then
    if exists_ w (registry_path w) then
      registry <- open_and_load w (registry_path w) ;;
      registered_teams <- known_teams registry ;;
      known <- py_in team registered_teams ;;
      if negb known && negb (py_eq team (VStr "pilot")) then
        names <- mapM as_str registered_teams ;;
        Ok [team_not_registered team (set_order w names)]
      else Ok []
    else Ok []
  else Ok [].

Definition _custom_validations (w : World) (config : value) (config_path : Path)
  : result (list Diagnostic) :=
  let errors : list Diagnostic := [] in
  let app_dir := parent config_path in
  (* Check 1: If backend enabled, Dockerfile must exist *)
  e1 <- check_dockerfile w config app_dir "backend" "./backend"
          backend_dockerfile_missing ;;
  let errors := (errors ++ e1)%list in
  (* Check 2: If frontend enabled, Dockerfile must exist *)
  e2 <- check_dockerfile w config app_dir "frontend" "./frontend"
          frontend_dockerfile_missing ;;
  let errors := (errors ++ e2)%list in
  (* Check 3: Warn about high resource allocation *)
  e3 <- check_cpu config ;;
  let errors := (errors ++ e3)%list in
  (* Check 4: Ensure team is registered *)
  e4 <- check_team w config ;;
  let errors := (errors ++ e4)%list in
  Ok errors.

(* ================================================================== *)
(** ** The pipeline *)

Definition file_not_found (config_path : Path) : Diagnostic :=
  {| error := [Lit ("File not found: " ++ path_str config_path)];
     details := None;
     field := None;
     why_this_matters :=
       [Lit "We need an app-config.yml file to know how to deploy your app"];
     fix_ := [Lit ("Create " ++ path_str config_path
                     ++ " using the template from apps/_template/")];
     severity := "critical";
     docs_link := Some "platform/docs/onboarding.md#step-2-create-configuration" |}.

Definition yaml_parse_failed (msg : string) : Diagnostic :=
  {| error := [Lit "Failed to parse YAML"];
     details := Some msg;
     field := None;
     why_this_matters :=
       [Lit "YAML syntax errors prevent us from reading your configuration"];
     fix_ := [Lit "Check YAML syntax at https://www.yamllint.com/ or use a YAML linter"];
     severity := "critical";
     docs_link := None |}.

(** [len(errors) == 0] *)
Definition is_empty {A : Type} (l : list A) : bool := (List.length l =? 0)%nat.

Definition validate (self : AppConfigValidator) (w : World) (config_path : Path)
  : result (bool * list Diagnostic) :=
  let errors : list Diagnostic := [] in
  (* Step 1: Parse YAML *)
  match open_and_load w config_path with
  | Raise FileNotFoundError =>
      Ok (false, (errors ++ [file_not_found config_path])%list)
  | Raise (YAMLError msg) =>
      Ok (false, (errors ++ [yaml_parse_failed msg])%list)
  | Raise e => Raise e
  | Ok config =>
      (* Step 2: Validate against schema *)
      match jsonschema_validate self config with
      | SchemaInvalid => Raise SchemaError
      | Violates e =>
          error_dict <- _explain_validation_error e config_path ;;
          Ok (false, (errors ++ [error_dict])%list)
      | Conforms =>
          (* Step 3: Custom validations *)
          custom_errors <- _custom_validations w config config_path ;;
          let errors := (errors ++ custom_errors)%list in
          Ok (is_empty errors, errors)
      end
  end.

(* ================================================================== *)
(** ** A sample application tree

    [apps/pilot/testapp/app-config.yml] next to [backend/Dockerfile], the
    registry at [apps/_registry.yml], the validator script at
    [platform/validation/validate.py]. *)

Definition sample_path : Path := parse_path "apps/pilot/testapp/app-config.yml".

Definition sample_backend (enabled : bool) (cpu : value) : value :=
  VDict [("enabled", VBool enabled); ("cpu", cpu);
         ("memory", VFloat 1%float); ("port", VInt 8000)].

Definition sample_config (team : string) (backend : value) : value :=
  VDict [("app", VDict [("name", VStr "testapp"); ("team", VStr team);
                        ("region", VStr "uksouth")]);
         ("environment", VStr "dev");
         ("components", VDict [("backend", backend)])].

Definition sample_registry (teams : list string) : value :=
  VDict [("apps", VList (map (fun t => VDict [("name", VStr "app"); ("team", VStr t)])
                             teams))].

Definition sample_world (config : option node) (dockerfile : bool)
    (registry : option node) : World :=
  {| fs := fun s =>
       if (s =? "apps/pilot/testapp/app-config.yml")%string then config
       else if (s =? "apps/pilot/testapp/backend/Dockerfile")%string then
         if dockerfile then Some (File (YamlDoc (VStr "FROM python:3.11-slim")))
         else None
       else if (s =? "apps/_registry.yml")%string then registry
       else None;
     script_file := parse_path "platform/validation/validate.py";
     set_order := fun l => l |}.

(** The validator built on the schema [{}], which every document satisfies. *)
Definition accept_all : AppConfigValidator :=
  {| jsonschema_validate := fun _ => Conforms |}.

(** A validator whose schema requires the top-level key [app]. *)
Definition app_required : ValidationError :=
  {| message := "'app' is a required property";
     path := [];
     validator := "required";
     schema := [("type", VStr "object"); ("required", VList [VStr "app"])] |}.


(** A violation below the root, and a validator that reports a given
    violation for every document. *)
Definition nested_violation : ValidationError :=
  {| message := "8 is greater than the maximum of 4";
     path := [Key "components"; Key "backend"; Key "cpu"];
     validator := "maximum";
     schema := [("type", VStr "number"); ("minimum", VFloat 0.25%float);
                ("maximum", VInt 4)] |}.


(** The sample document with CPU 4.0, its Dockerfile in place and no
    registry: the only finding is the high-CPU warning. *)
Definition high_cpu_world : World :=
  sample_world
    (Some (File (YamlDoc (sample_config "pilot" (sample_backend true (VFloat 4%float))))))
    true None.

(** The sample document of team [payments], with a registry file that
    exists and is empty ([yaml.safe_load] gives [None]). *)
Definition empty_registry_world : World :=
  sample_world
    (Some (File (YamlDoc (sample_config "payments" (sample_backend true (VFloat 1%float))))))
    true (Some (File (YamlDoc VNone))).

(** The same with a registry file that is not well-formed YAML. *)
Definition broken_registry_world : World :=
  sample_world
    (Some (File (YamlDoc (sample_config "payments" (sample_backend true (VFloat 1%float))))))
    true (Some (File (YamlFails "mapping values are not allowed here"))).

(** The sample document of team [payments] with a registry that knows
    the teams [platform] and [data]. *)
Definition registry_world : World :=
  sample_world
    (Some (File (YamlDoc (sample_config "payments" (sample_backend true (VFloat 1%float))))))
    true (Some (File (YamlDoc (sample_registry ["platform"; "data"])))).

(** The sample document with the backend enabled or not, no Dockerfile
    and no registry. *)
Definition no_dockerfile_world (enabled : bool) : World :=
  sample_world
    (Some (File (YamlDoc (sample_config "pilot" (sample_backend enabled (VFloat 1%float))))))
    false None.

(* ================================================================== *)
(** ** Vocabulary of the properties *)



(** The document at [p] loads and passes the schema. *)
Definition structurally_valid (self : AppConfigValidator) (w : World) (p : Path)
    (config : value) : Prop :=
  open_and_load w p = Ok config /\ jsonschema_validate self config = Conforms.

(** Diagnostics by the check that makes them. *)
Definition is_high_cpu (d : Diagnostic) : Prop :=
  exists cpu cost, d = high_cpu_warning cpu cost.

Definition is_team_warning (d : Diagnostic) : Prop :=
  exists team teams, d = team_not_registered team teams.

(** A number strictly greater than 2.0. *)
Definition number_gt_2 (v : value) : Prop :=
  match v with
  | VInt z => 2 < z
  | VFloat f => PrimFloat.ltb 2%float f = true
  | _ => False
  end.

(** The key [components.backend.cpu] is missing: there is no [components],
    or no [backend] in it, or no [cpu] in that. *)
Definition cpu_absent (config : value) : Prop :=
  exists top,
    config = VDict top /\
    (lookup "components" top = None \/
     exists components,
       lookup "components" top = Some (VDict components) /\
       (lookup "backend" components = None \/
        exists backend,
          lookup "backend" components = Some (VDict backend) /\
          lookup "cpu" backend = None)).

(** The key [components.<comp>.<key>] is written in the document. *)
Definition component_present (config : value) (comp key : string) (v : value)
  : Prop :=
  exists top components c,
    config = VDict top /\
    lookup "components" top = Some (VDict components) /\
    lookup comp components = Some (VDict c) /\
    lookup key c = Some v.

Definition cpu_present (config cpu : value) : Prop :=
  component_present config "backend" "cpu" cpu.



(** [product] is [cpu * 20]. *)
Definition times_20 (cpu product : value) : Prop :=
  match cpu with
  | VInt z => product = VInt (z * 20)
  | VFloat f => product = VFloat (PrimFloat.mul f 20%float)
  | _ => False
  end.

(** A document without [components], one with an empty [backend]. *)
Definition bare_config : value :=
  VDict [("app", VDict [("name", VStr "testapp"); ("team", VStr "pilot")]);
         ("environment", VStr "dev")].


(** The character [c] occurs in [s]. *)
Fixpoint contains (c : ascii) (s : string) : bool :=
  match s with
  | EmptyString => false
  | String x r => Ascii.eqb x c || contains c r
  end.

(** The order in which the fix of a schema violation is chosen.  The
    third rule is taken when [enum_applies]; the rules after it are taken
    when it is not. *)
Definition fix_precedence (enum_applies : ValidationError -> Prop)
    (e : ValidationError) : Prop :=
  let conventional := lookup "pattern" (schema e) = Some (VStr name_pattern) in
  let bounded := has_key "minimum" (schema e) = true \/
                 has_key "maximum" (schema e) = true in
  (* 1: the conventional identifier pattern *)
  (conventional -> _get_fix_suggestion e = Ok pattern_fix) /\
  (* 2: a missing required field *)
  (~ conventional -> validator e = "required" ->
   forall name,
     contains "'" name = false ->
     message e = "'" ++ name ++ "' is a required property" ->
     _get_fix_suggestion e = Ok (required_fix name)) /\
  (* 3: an enumeration *)
  (~ conventional -> validator e <> "required" -> enum_applies e ->
   forall allowed,
     lookup "enum" (schema e) = Some (VList allowed) ->
     _get_fix_suggestion e = Ok (enum_fix allowed)) /\
  (* 4: a type mismatch *)
  (~ conventional -> validator e <> "required" -> ~ enum_applies e ->
   validator e = "type" ->
   _get_fix_suggestion e = Ok (type_fix (dict_get (schema e) "type" VNone))) /\
  (* 5: numeric bounds *)
  (~ conventional -> validator e <> "required" -> ~ enum_applies e ->
   validator e <> "type" -> bounded ->
   _get_fix_suggestion e
   = Ok (bounds_fix (dict_get (schema e) "minimum" (VStr ""))
                    (dict_get (schema e) "maximum" (VStr "")))) /\
  (* 6: the fallback *)
  (~ conventional -> validator e <> "required" -> ~ enum_applies e ->
   validator e <> "type" -> ~ bounded ->
   _get_fix_suggestion e = Ok generic_fix).

(** Rule 3 as the specification words it: an enum constraint exists. *)
Definition enum_exists (e : ValidationError) : Prop :=
  has_key "enum" (schema e) = true.

(** Rule 3 as the code decides it: the violated keyword is [enum]. *)
Definition enum_violated (e : ValidationError) : Prop :=
  validator e = "enum".

(** A type mismatch on a field that also has an enumeration, as
    [environment: 5] against a string enum. *)
Definition type_mismatch_on_enum : ValidationError :=
  {| message := "5 is not of type 'string'";
     path := [Key "environment"];
     validator := "type";
     schema := [("type", VStr "string");
                ("enum", VList [VStr "dev"; VStr "staging"; VStr "prod"])] |}.

(** A registry of the documented shape: a mapping whose [apps] is a list
    of mappings that each name their team. *)
Definition names_team (app : value) : Prop :=
  exists a s, app = VDict a /\ dict_get a "team" VNone = VStr s.

Definition plain_registry (registry : value) : Prop :=
  exists r items,
    registry = VDict r /\
    dict_get r "apps" (VList []) = VList items /\
    Forall names_team items.

Definition is_str (v : value) : Prop := exists s, v = VStr s.

(** A number whose cost can be formatted. *)
Definition formattable_number (v : value) : Prop :=
  match v with
  | VBool _ | VFloat _ => True
  | VInt z => Z.abs (z * 20) < 2 ^ 1024 - 2 ^ 970
  | _ => False
  end.

(* ================================================================== *)
(** ** The command line of the validator *)

(** What [main] prints: the usage line, or the report that [json.dumps]
    renders. *)
Inductive printed : Type :=
| Usage
| Report (is_valid : bool) (config_file : string) (errors : list Diagnostic).

(** [main()], given [sys.argv].  [AppConfigValidator()] reads the schema
    with [json.load]; what comes of that is [construct].  The result is
    what was printed and the status passed to [sys.exit]. *)
Definition main (construct : result AppConfigValidator) (w : World)
    (argv : list string) : result (printed * Z) :=
  match argv with
  | _ :: arg :: _ =>
      let config_path := parse_path arg in
      validator <- construct ;;
      r <- validate validator w config_path ;;
      let (is_valid, errors) := r in
      Ok (Report is_valid (path_str config_path) errors,
          if is_valid then 0 else 1)
  | _ => Ok (Usage, 1)
  end.

(** The sample document with a frontend instead of a backend. *)
Definition frontend_config : value :=
  VDict [("app", VDict [("name", VStr "testapp"); ("team", VStr "pilot");
                        ("region", VStr "uksouth")]);
         ("environment", VStr "dev");
         ("components",
          VDict [("frontend",
                  VDict [("enabled", VBool true); ("cpu", VFloat 0.5%float);
                         ("memory", VFloat 1%float)])])].

Definition frontend_world : World :=
  sample_world (Some (File (YamlDoc frontend_config))) true None.

(** The sample registry in which two applications belong to [platform]. *)
Definition shared_team_world : World :=
  sample_world
    (Some (File (YamlDoc (sample_config "payments" (sample_backend true (VFloat 1%float))))))
    true (Some (File (YamlDoc (sample_registry ["platform"; "data"; "platform"])))).

(** [high_cpu_world] with a directory in the place of the Dockerfile. *)
Definition dockerfile_directory_world : World :=
  {| fs := fun s =>
       if (s =? "apps/pilot/testapp/backend/Dockerfile")%string then Some Directory
       else fs high_cpu_world s;
     script_file := script_file high_cpu_world;
     set_order := set_order high_cpu_world |}.

(** The strings among the members of a set. *)
Definition strs_of (s : list value) : list string :=
  flat_map (fun v => match v with VStr x => [x] | _ => [] end) s.

(* ================================================================== *)
(** ** The cost estimator of [scripts/estimate-costs.py]

    [CostEstimator] keeps the parsed document, the dict [costs] and the
    list [explanations]; its methods change the last two.  A method is a
    function from the state before to the state after, or to the
    exception it raises (the state is then lost: nothing uses the object
    after an exception).  Prices are the binary64 values of the decimal
    literals of [PRICING]. *)

Module CostEstimator.

(** Beside the exceptions of the validator, a subscript can raise
    [KeyError] and a float division [ZeroDivisionError]. *)
Inductive failure : Type :=
| Py (e : exn)
| KeyError (key : string)
| ZeroDivisionError.

Inductive outcome (A : Type) : Type :=
| Done (a : A)
| Fail (f : failure).
Arguments Done {A} a.
Arguments Fail {A} f.

Definition obind {A B : Type} (m : outcome A) (k : A -> outcome B) : outcome B :=
  match m with
  | Done a => k a
  | Fail f => Fail f
  end.

Notation "x <~ m ;; k" := (obind m (fun x => k))
  (at level 61, m at next level, right associativity).

Definition lift {A : Type} (r : result A) : outcome A :=
  match r with
  | Ok a => Done a
  | Raise e => Fail (Py e)
  end.

(** [o[k]] for a string [k]. *)
Definition py_getitem (o : value) (k : string) : outcome value :=
  match o with
  | VDict d =>
      match lookup k d with
      | Some v => Done v
      | None => Fail (KeyError k)
      end
  | _ => Fail (Py TypeError)
  end.

(** *** Numbers *)

(** The float nearest to [z * 2^e] (ties to even). *)
Definition float_of_scaled (z e : Z) : float :=
  SF2Prim (SpecFloat.binary_normalize prec emax z e false).

(** [float(z)] of an int, as an operand of a float operation. *)
Definition float_of_int (z : Z) : result float :=
  let f := float_of_scaled z 0 in
  if PrimFloat.is_infinity f then Raise OverflowError else Ok f.

(** [v * f] for a float [f]. *)
Definition py_mul_float (v : value) (f : float) : result float :=
  match v with
  | VFloat x => Ok (PrimFloat.mul x f)
  | VInt z => x <- float_of_int z ;; Ok (PrimFloat.mul x f)
  | VBool b => x <- float_of_int (int_of_bool b) ;; Ok (PrimFloat.mul x f)
  | _ => Raise TypeError
  end.

(** [v / 2^k] for the int [2^k]: the quotient of two ints is rounded
    once. *)
Definition py_div_pow2 (v : value) (k : Z) : result float :=
  match v with
  | VFloat x => Ok (PrimFloat.div x (float_of_scaled 1 k))
  | VInt z =>
      let f := float_of_scaled z (- k) in
      if PrimFloat.is_infinity f then Raise OverflowError else Ok f
  | VBool b => Ok (float_of_scaled (int_of_bool b) (- k))
  | _ => Raise TypeError
  end.

(** *** Prices *)

Definition SECONDS_PER_MONTH : float := 2592000%float.   (* 30 * 24 * 60 * 60 *)

Definition cpu_per_core_per_second : float := 0x1.a36e2eb1c432dp-17%float.  (* 0.0000125 *)
Definition memory_per_gb_per_second : float := 0x1.77cf44765195fp-20%float. (* 0.0000014 *)
Definition container_registry_basic : float := 0x1.0e147ae147ae1p+2%float.  (* 4.22 *)

Record Pricing : Type := {
  base : float;
  storage_per_gb : float
}.

Definition basic_pricing : Pricing :=
  {| base := 0x1.519999999999ap+4%float;             (* 21.10 *)
     storage_per_gb := 0x1.5810624dd2f1bp-4%float |}. (* 0.084 *)

Definition general_purpose_pricing : Pricing :=
  {| base := 52.75%float;
     storage_per_gb := 0x1.5810624dd2f1bp-4%float |}.

Definition postgresql_pricing : list (string * Pricing) :=
  [("basic", basic_pricing); ("general_purpose", general_purpose_pricing)].

Definition mysql_pricing : list (string * Pricing) :=
  [("basic", basic_pricing)].

(** [table.get(tier, table['basic'])] *)
Fixpoint pricing_get (table : list (string * Pricing)) (tier : string)
    (default : Pricing) : Pricing :=
  match table with
  | [] => default
  | (k, v) :: r => if (k =? tier)%string then v else pricing_get r tier default
  end.

(** *** Texts and state *)

(** Beside the fragments of the validator's texts: [{x:.0f}], [{x:.1f}]
    and [s.title()]. *)
Inductive piece : Type :=
| Frag (f : frag)
| Fix0 (x : float)
| Fix1 (x : float)
| Title (s : string).

Definition ptext : Type := list piece.

Definition plain (t : text) : ptext := map Frag t.

Record Explanation : Type := {
  resource : ptext;
  cost : float;
  config_ : option ptext;            (* key [config] *)
  breakdown : option text;
  why : string;
  savings_tip : option text
}.

Record Estimator : Type := {
  config : value;
  costs : list (string * float);
  explanations : list Explanation
}.

(** [costs[k] = x]: a key keeps its place. *)
Fixpoint assign (k : string) (x : float) (d : list (string * float))
  : list (string * float) :=
  match d with
  | [] => [(k, x)]
  | (k', x') :: r =>
      if (k' =? k)%string then (k, x) :: r else (k', x') :: assign k x r
  end.

Definition record (self : Estimator) (k : string) (x : float) (e : Explanation)
  : Estimator :=
  {| config := config self;
     costs := assign k x (costs self);
     explanations := (explanations self ++ [e])%list |}.

(** [s.lower()], exact on ASCII; no other character turns into a letter
    of a key of [PRICING]. *)
Definition lower_ascii (c : ascii) : ascii :=
  let n := nat_of_ascii c in
  if ((65 <=? n) && (n <=? 90))%nat then ascii_of_nat (n + 32) else c.

Fixpoint lower (s : string) : string :=
  match s with
  | EmptyString => EmptyString
  | String c r => String (lower_ascii c) (lower r)
  end.

(** [v.lower()] and [v.title()] exist on strings only. *)
Definition as_text (v : value) : result string :=
  match v with
  | VStr s => Ok s
  | _ => Raise AttributeError
  end.

(** *** The methods *)

Definition acr_explanation (cost : float) : Explanation :=
  {| resource := [Frag (Lit "Azure Container Registry")];
     cost := cost;
     config_ := Some [Frag (Lit "Basic tier")];
     breakdown := None;
     why := "Stores your Docker images. Basic tier is sufficient for most apps. This is shared across all apps in the platform, so the cost is split.";
     savings_tip :=
       Some [Lit "Shared across all platform apps, so actual cost per app is lower. With 10 apps, your share would be £";
             Fix2 (VFloat (PrimFloat.div cost 10%float)); Lit "/month"] |}.

Definition _estimate_acr (self : Estimator) : Estimator :=
  let cost := container_registry_basic in
  record self "acr" cost (acr_explanation cost).

(** [x * PRICING['container_instance'][...] * SECONDS_PER_MONTH] *)
Definition monthly (x : value) (per_second : float) : result float :=
  y <- py_mul_float x per_second ;;
  Ok (PrimFloat.mul y SECONDS_PER_MONTH).

Definition container_breakdown (cpu_cost memory_cost : float) : text :=
  [Lit "CPU: £"; Fix2 (VFloat cpu_cost); Lit "/month + Memory: £";
   Fix2 (VFloat memory_cost); Lit "/month"].

Definition _estimate_backend (self : Estimator) : outcome Estimator :=
  components <~ py_getitem (config self) "components" ;;
  backend <~ py_getitem components "backend" ;;
  cpu <~ lift (py_get backend "cpu" (VFloat 1%float)) ;;
  memory <~ lift (py_get backend "memory" (VFloat 1.5%float)) ;;
  port <~ lift (py_get backend "port" (VInt 8000)) ;;
  cpu_cost <~ lift (monthly cpu cpu_per_core_per_second) ;;
  memory_cost <~ lift (monthly memory memory_per_gb_per_second) ;;
  let total_cost := PrimFloat.add cpu_cost memory_cost in
  half_cpu <~ lift (py_div_pow2 cpu 1) ;;
  half_cpu_cost <~ lift (monthly (VFloat half_cpu) cpu_per_core_per_second) ;;
  half_memory <~ lift (py_div_pow2 memory 1) ;;
  half_memory_cost <~ lift (monthly (VFloat half_memory) memory_per_gb_per_second) ;;
  let half_total := PrimFloat.add half_cpu_cost half_memory_cost in
  Done (record self "backend" total_cost
          {| resource := [Frag (Lit "Backend Container Instance")];
             cost := total_cost;
             config_ := Some (plain [Str cpu; Lit " CPU cores, "; Str memory;
                                     Lit "GB RAM, port "; Str port]);
             breakdown := Some (container_breakdown cpu_cost memory_cost);
             why := "Always-on container running your backend API. Charged per second of runtime with these resource allocations.";
             savings_tip :=
               Some [Lit "Reduce to "; Str (VFloat half_cpu); Lit " cores and ";
                     Str (VFloat half_memory); Lit "GB RAM to save £";
                     Fix2 (VFloat (PrimFloat.sub total_cost half_total));
                     Lit "/month (new cost: £"; Fix2 (VFloat half_total);
                     Lit "/month). Test if your app still performs well."] |}).

Definition _estimate_frontend (self : Estimator) : outcome Estimator :=
  components <~ py_getitem (config self) "components" ;;
  frontend <~ py_getitem components "frontend" ;;
  cpu <~ lift (py_get frontend "cpu" (VFloat 0.5%float)) ;;
  memory <~ lift (py_get frontend "memory" (VFloat 1%float)) ;;
  cpu_cost <~ lift (monthly cpu cpu_per_core_per_second) ;;
  memory_cost <~ lift (monthly memory memory_per_gb_per_second) ;;
  let total_cost := PrimFloat.add cpu_cost memory_cost in
  Done (record self "frontend" total_cost
          {| resource := [Frag (Lit "Frontend Container Instance")];
             cost := total_cost;
             config_ := Some (plain [Str cpu; Lit " CPU cores, "; Str memory;
                                     Lit "GB RAM"]);
             breakdown := Some (container_breakdown cpu_cost memory_cost);
             why := "Serves your frontend application (web UI)";
             savings_tip :=
               Some [Lit "Frontend typically needs less resources than backend. Current allocation seems reasonable for a web app."] |}).

(** [db_type == 'postgresql'] *)
Definition is_postgresql (db_type : value) : bool :=
  match db_type with
  | VStr s => (s =? "postgresql")%string
  | _ => false
  end.

Definition _estimate_database (self : Estimator) : outcome Estimator :=
  components <~ py_getitem (config self) "components" ;;
  database <~ py_getitem components "database" ;;
  db_type <~ lift (py_get database "type" (VStr "postgresql")) ;;
  raw_tier <~ lift (py_get database "tier" (VStr "Basic")) ;;
  tier_text <~ lift (as_text raw_tier) ;;
  let tier := replace " " "_" (lower tier_text) in
  storage_mb <~ lift (py_get database "storage_mb" (VInt 32768)) ;;
  storage_gb <~ lift (py_div_pow2 storage_mb 10) ;;
  let pricing :=
    if is_postgresql db_type
    then pricing_get postgresql_pricing tier basic_pricing
    else pricing_get mysql_pricing tier basic_pricing in
  let base_cost := base pricing in
  let storage_cost := PrimFloat.mul storage_gb (storage_per_gb pricing) in
  let total_cost := PrimFloat.add base_cost storage_cost in
  db_name <~ lift (as_text db_type) ;;
  Done (record self "database" total_cost
          {| resource := [Title db_name; Frag (Lit " Database")];
             cost := total_cost;
             config_ := Some [Title (replace "_" " " tier); Frag (Lit " tier, ");
                              Fix0 storage_gb; Frag (Lit "GB storage")];
             breakdown :=
               Some [Lit "Instance: £"; Fix2 (VFloat base_cost);
                     Lit "/month + Storage: £"; Fix2 (VFloat storage_cost);
                     Lit "/month"];
             why := "Managed database with automated backups, patching, and high availability. Saves you from managing database infrastructure yourself.";
             savings_tip :=
               Some [Lit "For dev/test environments, consider disabling the database and using SQLite or a shared dev database. This would save £";
                     Fix2 (VFloat total_cost); Lit "/month."] |}).

(** What [estimate] returns. *)
Record Estimate : Type := {
  total : float;
  breakdown_of : list (string * float);        (* key [breakdown] *)
  explanations_of : list Explanation           (* key [explanations] *)
}.

(** [if self.config.get('components', {}).get(comp, {}).get('enabled'):
    method()] *)
Definition when_enabled (comp : string) (method : Estimator -> outcome Estimator)
    (self : Estimator) : outcome Estimator :=
  enabled <~ lift (component_get (config self) comp "enabled" VNone) ;;
  if truthy enabled then method self else Done self.

(** [estimate()]; [py_sum] is the builtin [sum] on the values of [costs]
    (CPython adds floats one after the other up to 3.11 and with a
    compensated sum from 3.12 on). *)
Definition estimate (py_sum : list float -> float) (self : Estimator)
  : outcome (Estimator * Estimate) :=
  let self := _estimate_acr self in
  self <~ when_enabled "backend" _estimate_backend self ;;
  self <~ when_enabled "frontend" _estimate_frontend self ;;
  self <~ when_enabled "database" _estimate_database self ;;
  Done (self,
        {| total := py_sum (map snd (costs self));
           breakdown_of := costs self;
           explanations_of := explanations self |}).

(** [CostEstimator(config_path)] on a document that loaded. *)
Definition new (config : value) : Estimator :=
  {| config := config; costs := []; explanations := [] |}.

(** *** The report *)

(** A row of the table: [| resource | £cost | config | why |]. *)
Definition table_row (exp : Explanation) : ptext :=
  ([Frag (Lit "| ")] ++ resource exp
   ++ [Frag (Lit " | "); Frag (Lit "£"); Frag (Fix2 (VFloat (cost exp)));
       Frag (Lit " | ")]
   ++ match config_ exp with
      | Some c => c
      | None => [Frag (Lit "N/A")]
      end
   ++ [Frag (Lit " | "); Frag (Lit (why exp)); Frag (Lit " |")])%list.

Definition breakdown_lines (exp : Explanation) : list ptext :=
  match breakdown exp with
  | Some b =>
      [ ([Frag (Lit "**")] ++ resource exp ++ [Frag (Lit ":**")])%list;
        (Frag (Lit "- ") :: plain b);
        [Frag (Lit "")] ]
  | None => []
  end.

Definition tip_lines (exp : Explanation) : list ptext :=
  match savings_tip exp with
  | Some t =>
      [ ([Frag (Lit "- **")] ++ resource exp ++ [Frag (Lit ":** ")] ++ plain t)%list ]
  | None => []
  end.

Definition line (s : string) : ptext := [Frag (Lit s)].

(** [200 / total]: a float division by zero raises. *)
Definition py_div_200 (total : float) : outcome float :=
  if PrimFloat.eqb total 0%float then Fail ZeroDivisionError
  else Done (PrimFloat.div 200%float total).

(** [generate_markdown_report()]: the lines that are joined. *)
Definition generate_markdown_report (py_sum : list float -> float)
    (self : Estimator) : outcome (Estimator * list ptext) :=
  r <~ estimate py_sum self ;;
  let (self, result) := r in
  let lines : list ptext := [] in
  let lines :=
    (lines
     ++ [ [Frag (Lit "### 💰 Monthly Cost Estimate: £");
           Frag (Fix2 (VFloat (total result)))];
          line "";
          line "| Resource | Cost | Configuration | Why You Need This |";
          line "|----------|------|---------------|-------------------|" ]
     ++ map table_row (explanations_of result)
     ++ [ line ""; line "#### 💡 Cost Breakdown Details"; line "" ]
     ++ flat_map breakdown_lines (explanations_of result)
     ++ [ line "#### 💸 Cost Saving Tips"; line "" ]
     ++ flat_map tip_lines (explanations_of result)
     ++ [ line "";
          [Frag (Lit "**Total estimated monthly cost: £");
           Frag (Fix2 (VFloat (total result))); Frag (Lit "**")];
          line "";
          line "#### 📊 Annual Projection" ])%list in
  let annual := PrimFloat.mul (total result) 12%float in
  let lines :=
    (lines ++ [ [Frag (Lit "- Annual cost: £"); Frag (Fix2 (VFloat annual))] ])%list in
  months <~ py_div_200 (total result) ;;
  let lines :=
    (lines
     ++ [ [Frag (Lit "- Using Azure free credits (£200): Covers ~");
           Fix1 months; Frag (Lit " months")];
          line "";
          line "#### ℹ️ Notes";
          line "";
          line "- Prices based on Azure UK South region, January 2025";
          line "- Actual costs may vary based on:";
          line "  - Data transfer (outbound traffic)";
          line "  - Actual container uptime";
          line "  - Database query performance";
          line "  - Azure pricing changes";
          line "- Set up cost alerts in Azure Portal to monitor actual spend";
          line "- Consider destroying dev/test environments when not in use" ])%list in
  Done (self, lines).

(** What [main] prints. *)
Inductive printed : Type :=
| Usage
| NotFound (config_path : string)
| Markdown (lines : list ptext).

(** [main()], given [sys.argv]: what was printed and the exit status (0
    when [main] returns). *)
Definition main (py_sum : list float -> float) (w : World) (argv : list string)
  : outcome (printed * Z) :=
  match argv with
  | _ :: arg :: _ =>
      let config_path := parse_path arg in
      if negb (exists_ w config_path)
      then Done (NotFound (path_str config_path), 1)
      else
        config <~ lift (open_and_load w config_path) ;;
        r <~ generate_markdown_report py_sum (new config) ;;
        Done (Markdown (snd r), 0)
  | _ => Done (Usage, 1)
  end.

(** [sum] as CPython computes it up to 3.11. *)
Definition sum_in_order (l : list float) : float :=
  fold_left PrimFloat.add l 0%float.

(** A backend whose memory is negative, with the cost of the registry
    negated. *)
Definition cancelling_config : value :=
  VDict [("components",
          VDict [("backend",
                  VDict [("enabled", VBool true); ("cpu", VInt 0);
                         ("memory", VFloat (-0x1.29b50d17edf0ap+0)%float)])])].

(** A MySQL database of the general-purpose tier, and the same on
    PostgreSQL. *)
Definition database_config (db_type tier : string) : value :=
  VDict [("components",
          VDict [("database",
                  VDict [("enabled", VBool true); ("type", VStr db_type);
                         ("tier", VStr tier); ("storage_mb", VInt 32768)])])].

(** *** Vocabulary of the properties *)

(** The exceptions a document of unexpected shape can cause. *)
Definition shape_error (f : failure) : Prop :=
  f = Py AttributeError \/ f = Py TypeError \/ f = Py OverflowError.

(** The test [config.get('components', {}).get(comp, {}).get('enabled')]
    of [estimate] passed. *)
Definition is_enabled (cfg : value) (comp : string) : bool :=
  match component_get cfg comp "enabled" VNone with
  | Ok v => truthy v
  | Raise _ => false
  end.

(** What a method writes: a key of [costs] with its value, and an
    explanation. *)
Definition entry : Type := (string * float * Explanation)%type.

Definition apply_entry (s : Estimator) (en : entry) : Estimator :=
  record s (fst (fst en)) (snd (fst en)) (snd en).

Definition apply_entries (es : list entry) (s : Estimator) : Estimator :=
  fold_left apply_entry es s.

(** What [estimate] returns in the state [s]. *)
Definition result_of (py_sum : list float -> float) (s : Estimator) : Estimate :=
  {| total := py_sum (map snd (costs s));
     breakdown_of := costs s;
     explanations_of := explanations s |}.

End CostEstimator.

(* ================================================================== *)
(** * Properties *)

(** ** The result monad *)

Lemma bind_Ok {A B : Type} (m : result A) (k : A -> result B) (b : B) :
  bind m k = Ok b -> exists a, m = Ok a /\ k a = Ok b.
Proof.
  destruct m as [a|e]; simpl; intro H; [eauto | discriminate].
Qed.


(** Splits hypotheses [x <- m ;; k = Ok b] and decides the [if]s on the way. *)
Ltac inv_ok :=
  repeat match goal with
  | H : bind _ _ = Ok _ |- _ =>
      let a := fresh "a" in
      let Ha := fresh "Ha" in
      apply bind_Ok in H; destruct H as (a & Ha & H)
  | H : Ok _ = Ok _ |- _ => inversion H; subst; clear H
  | H : Raise _ = Ok _ |- _ => discriminate H
  | H : (if ?c then _ else _) = Ok _ |- _ =>
      let E := fresh "E" in destruct c eqn:E
  end.

(** ** The pipeline, stage by stage *)




Lemma validate_conforms self w p config :
  structurally_valid self w p config ->
  validate self w p =
    (errs <- _custom_validations w config p ;; Ok (is_empty errs, errs)).
Proof.
  intros [H1 H2]. unfold validate. rewrite H1, H2. reflexivity.
Qed.

Lemma open_and_load_Ok w p config :
  open_and_load w p = Ok config <->
  fs w (path_str p) = Some (File (YamlDoc config)).
Proof.
  unfold open_and_load.
  destruct (fs w (path_str p)) as [[|[msg|v]]|]; split; intro H;
    try discriminate; congruence.
Qed.

(** A run that reports has one of four shapes. *)
Lemma validate_Ok_cases self w p b errs :
  validate self w p = Ok (b, errs) ->
  (fs w (path_str p) = None /\ b = false /\ errs = [file_not_found p]) \/
  (exists msg, fs w (path_str p) = Some (File (YamlFails msg)) /\
               b = false /\ errs = [yaml_parse_failed msg]) \/
  (exists config e d,
      fs w (path_str p) = Some (File (YamlDoc config)) /\
      jsonschema_validate self config = Violates e /\
      _explain_validation_error e p = Ok d /\ b = false /\ errs = [d]) \/
  (exists config,
      structurally_valid self w p config /\
      _custom_validations w config p = Ok errs /\ b = is_empty errs).
Proof.
  unfold validate, open_and_load, structurally_valid.
  destruct (fs w (path_str p)) as [[|[msg|config]]|] eqn:F; simpl; intro H.
  - discriminate.
  - inversion H; subst. right; left. eauto.
  - destruct (jsonschema_validate self config) as [|e|] eqn:S.
    + inv_ok. do 3 right. exists config. repeat split; auto.
      apply open_and_load_Ok; exact F.
    + inv_ok. right; right; left. exists config, e, a. auto.
    + discriminate.
  - inversion H; subst. left. auto.
Qed.

(** ** Early stop: loader and schema failures *)



(** ** Structural diagnostics *)

Lemma explain_validation_error_Ok e p d :
  _explain_validation_error e p = Ok d ->
  exists t, _get_fix_suggestion e = Ok t /\
    d = {| error := [Lit (message e)];
           details := None;
           field := Some (field_path_of e);
           why_this_matters := [Lit (_get_field_explanation (field_path_of e))];
           fix_ := t;
           severity := "error";
           docs_link := Some (_get_docs_link (field_path_of e)) |}.
Proof.
  unfold _explain_validation_error. intro H. inv_ok. eauto.
Qed.

Lemma split_nonempty sep s : split sep s <> [].
Proof.
  destruct s as [|c r]; simpl; [discriminate|].
  destruct (Ascii.eqb c sep); [discriminate|].
  destruct (split sep r); discriminate.
Qed.

(** A message with a quote in it has a second piece. *)
Lemma second_split_returns s :
  contains "'" s = true -> exists x, second (split "'" s) = Ok x.
Proof.
  induction s as [|c r IH]; simpl; [discriminate|].
  destruct (Ascii.eqb c "'") eqn:E; simpl.
  - intros _. pose proof (split_nonempty "'" r) as Hne.
    destruct (split "'" r) as [|x t]; [contradiction|]. simpl. eauto.
  - intro H. destruct (IH H) as (x & Hx).
    destruct (split "'" r) as [|h [|y t]]; simpl in *; try discriminate. eauto.
Qed.




(** ** What each custom check can append *)

Lemma custom_validations_Ok w config p errs :
  _custom_validations w config p = Ok errs ->
  exists e1 e2 e3 e4,
    check_dockerfile w config (parent p) "backend" "./backend"
      backend_dockerfile_missing = Ok e1 /\
    check_dockerfile w config (parent p) "frontend" "./frontend"
      frontend_dockerfile_missing = Ok e2 /\
    check_cpu config = Ok e3 /\
    check_team w config = Ok e4 /\
    errs = (e1 ++ e2 ++ e3 ++ e4)%list.
Proof.
  unfold _custom_validations. intro H. inv_ok.
  exists a, a0, a1, a2. simpl. rewrite <- !app_assoc. auto.
Qed.

Lemma check_dockerfile_Ok w config app_dir comp default_dir missing errs :
  check_dockerfile w config app_dir comp default_dir missing = Ok errs ->
  exists enabled,
    component_get config comp "enabled" VNone = Ok enabled /\
    ((truthy enabled = false /\ errs = []) \/
     (truthy enabled = true /\
      exists dir d,
        component_get config comp "directory" (VStr default_dir) = Ok dir /\
        py_joinpath app_dir dir = Ok d /\
        errs = if exists_ w (joinpath d "Dockerfile") then []
               else [missing (joinpath d "Dockerfile")])).
Proof.
  unfold check_dockerfile. intro H. inv_ok; exists a; split; auto.
  - right. split; auto. exists a0, a1.
    apply negb_true_iff in E0. rewrite E0. auto.
  - right. split; auto. exists a0, a1.
    apply negb_false_iff in E0. rewrite E0. auto.
Qed.

Lemma check_cpu_Ok config errs :
  check_cpu config = Ok errs ->
  exists cpu high,
    component_get config "backend" "cpu" (VInt 0) = Ok cpu /\
    py_gt_2 cpu = Ok high /\
    ((high = false /\ errs = []) \/
     (high = true /\
      exists product cost,
        py_mul_20 cpu = Ok product /\ format_2f product = Ok cost /\
        errs = [high_cpu_warning cpu cost])).
Proof.
  unfold check_cpu. intro H. inv_ok.
  - exists a, true. repeat split; auto. right. split; auto. exists a1, a2. auto.
  - exists a, false. auto.
Qed.

Lemma check_team_members w config errs d :
  check_team w config = Ok errs -> In d errs -> is_team_warning d.
Proof.
  unfold check_team. intros H Hin. inv_ok; simpl in Hin; try contradiction.
  destruct Hin as [<-|[]]. red. eauto.
Qed.

(** Every diagnostic of the custom checks is one of the four kinds. *)
Lemma custom_validations_kinds w config p errs d :
  _custom_validations w config p = Ok errs -> In d errs ->
  (exists path, d = backend_dockerfile_missing path) \/
  (exists path, d = frontend_dockerfile_missing path) \/
  is_high_cpu d \/ is_team_warning d.
Proof.
  intros H Hin.
  apply custom_validations_Ok in H.
  destruct H as (e1 & e2 & e3 & e4 & H1 & H2 & H3 & H4 & ->).
  rewrite !in_app_iff in Hin. destruct Hin as [Hin|[Hin|[Hin|Hin]]].
  - left. apply check_dockerfile_Ok in H1.
    destruct H1 as (en & _ & [[_ ->]|[_ (dir & dd & _ & _ & ->)]]); [destruct Hin|].
    destruct (exists_ w _); [destruct Hin|]. destruct Hin as [<-|[]]. eauto.
  - right; left. apply check_dockerfile_Ok in H2.
    destruct H2 as (en & _ & [[_ ->]|[_ (dir & dd & _ & _ & ->)]]); [destruct Hin|].
    destruct (exists_ w _); [destruct Hin|]. destruct Hin as [<-|[]]. eauto.
  - right; right; left. apply check_cpu_Ok in H3.
    destruct H3 as (cpu & high & _ & _ & [[_ ->]|[_ (pr & cost & _ & _ & ->)]]);
      [destruct Hin|].
    destruct Hin as [<-|[]]. red. eauto.
  - right; right; right. eapply check_team_members; eauto.
Qed.

Lemma custom_validations_severity w config p errs d :
  _custom_validations w config p = Ok errs -> In d errs ->
  severity d = "error" \/ severity d = "warning".
Proof.
  intros H Hin.
  destruct (custom_validations_kinds _ _ _ _ _ H Hin)
    as [[x ->]|[[x ->]|[(x & y & ->)|(x & y & ->)]]]; simpl; auto.
Qed.

(** C10: the diagnostic of a schema violation has severity [error] and a
    documentation link made of the field path with its dots turned into
    hyphens; a diagnostic of severity [critical] is the single diagnostic
    of a failed load (file not found, YAML parse failure). *)
Theorem severity_by_stage self w p b errs d :
  validate self w p = Ok (b, errs) ->
  In d errs ->
  (forall config e,
      open_and_load w p = Ok config ->
      jsonschema_validate self config = Violates e ->
      severity d = "error" /\
      exists f, field d = Some f /\
                docs_link d = Some (base_url ++ "#" ++ replace "." "-" f)) /\
  (severity d = "critical" ->
   errs = [d] /\
   ((fs w (path_str p) = None /\ d = file_not_found p) \/
    (exists msg, fs w (path_str p) = Some (File (YamlFails msg)) /\
                 d = yaml_parse_failed msg))).
Proof.
  intros Hrun Hin.
  destruct (validate_Ok_cases _ _ _ _ _ Hrun)
    as [(Hfs & -> & ->)
       |[(msg & Hfs & -> & ->)
        |[(config & e & d' & Hfs & Hschema & Hexplain & -> & ->)
         |(config & [Hload Hschema] & Hcustom & ->)]]].
  - destruct Hin as [<-|[]]. split.
    + intros config e Hload _. apply open_and_load_Ok in Hload. congruence.
    + intros _. split; auto.
  - destruct Hin as [<-|[]]. split.
    + intros config e Hload _. apply open_and_load_Ok in Hload. congruence.
    + intros _. split; auto. right. eauto.
  - destruct Hin as [<-|[]].
    apply explain_validation_error_Ok in Hexplain.
    destruct Hexplain as (t & _ & ->). split.
    + intros _ _ _ _. split; [reflexivity|].
      eexists. split; reflexivity.
    + simpl. discriminate.
  - split.
    + intros config' e Hload' Hschema'. congruence.
    + intro Hcrit.
      destruct (custom_validations_severity _ _ _ _ _ Hcustom Hin) as [Hs|Hs];
        rewrite Hs in Hcrit; discriminate.
Qed.

Lemma severity_by_stage_witness :
  [yaml_parse_failed "while scanning a simple key"]
    = [yaml_parse_failed "while scanning a simple key"] /\
  ((fs (sample_world (Some (File (YamlFails "while scanning a simple key")))
          true None) (path_str sample_path) = None /\
    yaml_parse_failed "while scanning a simple key" = file_not_found sample_path) \/
   (exists msg,
       fs (sample_world (Some (File (YamlFails "while scanning a simple key")))
             true None) (path_str sample_path) = Some (File (YamlFails msg)) /\
       yaml_parse_failed "while scanning a simple key" = yaml_parse_failed msg)).
Proof.
  exact (proj2 (severity_by_stage accept_all
                  (sample_world (Some (File (YamlFails "while scanning a simple key")))
                     true None)
                  sample_path false _ _ eq_refl (or_introl eq_refl))
               eq_refl).
Defined.

(** ** Runs that return a report

    The checks raise only on documents and registries of unexpected
    shape; on the shapes below they return. *)

Lemma check_cpu_returns config cpu :
  component_get config "backend" "cpu" (VInt 0) = Ok cpu ->
  formattable_number cpu ->
  exists errs, check_cpu config = Ok errs.
Proof.
  intros Hget Hnum. unfold check_cpu. rewrite Hget. simpl.
  destruct cpu as [|x|z|f|s|l|d]; simpl in Hnum; try contradiction; simpl.
  - destruct (2 <? int_of_bool x) eqn:E; [|eauto].
    destruct x; simpl in E; discriminate.
  - destruct (2 <? z); [|eauto]. unfold format_2f.
    apply Z.ltb_lt in Hnum. rewrite Hnum. simpl. eauto.
  - destruct (PrimFloat.ltb 2 f); simpl; eauto.
Qed.

Lemma set_add_strs acc v :
  Forall is_str acc -> is_str v -> Forall is_str (set_add acc v).
Proof.
  intros Hacc Hv. unfold set_add. destruct (set_mem v acc); [assumption|].
  apply Forall_app. auto.
Qed.

Lemma fold_set_add_strs l acc :
  Forall is_str acc -> Forall is_str l -> Forall is_str (fold_left set_add l acc).
Proof.
  revert acc. induction l as [|v l IH]; simpl; intros acc Hacc Hl; [assumption|].
  inversion Hl; subst. apply IH; [apply set_add_strs|]; assumption.
Qed.

Lemma mapM_as_str_returns l :
  Forall is_str l -> exists names, mapM as_str l = Ok names.
Proof.
  induction 1 as [|v l (s & ->) _ (names & IH)]; simpl; [eauto|].
  rewrite IH. simpl. eauto.
Qed.

Lemma mapM_team_of_returns items :
  Forall names_team items ->
  exists members, mapM team_of items = Ok members /\ Forall is_str members.
Proof.
  induction 1 as [|app items (a & s & -> & Ht) _ (members & IH & Hstr)]; simpl.
  - eauto.
  - unfold team_of at 1. simpl. rewrite Ht. simpl. rewrite IH. simpl.
    eexists. split; [reflexivity|]. constructor; [red; eauto | assumption].
Qed.

Lemma known_teams_plain registry :
  plain_registry registry ->
  exists registered names,
    known_teams registry = Ok registered /\ mapM as_str registered = Ok names.
Proof.
  intros (r & items & -> & Happs & Hitems).
  destruct (mapM_team_of_returns _ Hitems) as (members & Hmembers & Hstr).
  unfold known_teams, registry_apps. simpl. rewrite Happs. simpl.
  rewrite Hmembers. simpl.
  destruct (mapM_as_str_returns (fold_left set_add members []))
    as (names & Hnames); [apply fold_set_add_strs; auto|].
  eauto.
Qed.

(** With a team that is a string (or unset) and a registry that is absent
    or plain, the team check returns. *)
Lemma check_team_returns w config team :
  app_team config = Ok team ->
  hashable team = true ->
  (exists_ w (registry_path w) = false \/
   exists registry,
     open_and_load w (registry_path w) = Ok registry /\ plain_registry registry) ->
  exists errs, check_team w config = Ok errs.
Proof.
  intros Hteam Hhash Hreg. unfold check_team. rewrite Hteam. simpl.
  destruct (truthy team); [|eauto].
  destruct (exists_ w (registry_path w)) eqn:Hex; [|eauto].
  destruct Hreg as [Hno | (registry & Hload & Hplain)]; [discriminate|].
  destruct (known_teams_plain _ Hplain) as (registered & names & Hknown & Hnames).
  rewrite Hload. simpl. rewrite Hknown. simpl.
  unfold py_in. rewrite Hhash. simpl. rewrite Hnames. simpl.
  destruct (negb _ && negb _); eauto.
Qed.

(** ** The high-CPU warning *)

Lemma py_gt_2_spec cpu high :
  py_gt_2 cpu = Ok high -> (high = true <-> number_gt_2 cpu).
Proof.
  destruct cpu as [|x|z|f|s|l|d]; simpl; intro H; inversion H; subst; clear H.
  - destruct x; simpl; split; try discriminate; contradiction.
  - apply Z.ltb_lt.
  - reflexivity.
Qed.

Lemma py_mul_20_spec cpu product :
  number_gt_2 cpu -> py_mul_20 cpu = Ok product -> times_20 cpu product.
Proof.
  destruct cpu; simpl; intros Hgt H; try contradiction;
    inversion H; reflexivity.
Qed.

Lemma format_2f_Ok product cost :
  format_2f product = Ok cost -> cost = Fix2 product.
Proof.
  unfold format_2f. destruct product; intro H; try discriminate.
  - inversion H; reflexivity.
  - destruct (_ <? _); [inversion H; reflexivity | discriminate].
  - inversion H; reflexivity.
Qed.

(** Where the high-CPU warnings of a report come from. *)
Lemma custom_validations_high_cpu w config p errs :
  _custom_validations w config p = Ok errs ->
  exists cpu high,
    component_get config "backend" "cpu" (VInt 0) = Ok cpu /\
    py_gt_2 cpu = Ok high /\
    (high = true ->
     exists product, py_mul_20 cpu = Ok product /\
                     In (high_cpu_warning cpu (Fix2 product)) errs) /\
    (forall d, In d errs -> is_high_cpu d ->
       high = true /\
       exists product, py_mul_20 cpu = Ok product /\
                       d = high_cpu_warning cpu (Fix2 product)).
Proof.
  intro H. apply custom_validations_Ok in H.
  destruct H as (e1 & e2 & e3 & e4 & H1 & H2 & H3 & H4 & ->).
  apply check_cpu_Ok in H3. destruct H3 as (cpu & high & Hget & Hgt & Hcases).
  exists cpu, high. split; [assumption|]. split; [assumption|]. split.
  - intros ->. destruct Hcases as [[Hf _]|[_ (pr & cost & Hmul & Hfmt & ->)]];
      [discriminate|].
    apply format_2f_Ok in Hfmt. subst cost.
    exists pr. split; [assumption|]. rewrite !in_app_iff. simpl. auto.
  - intros d Hin (c & k & ->). rewrite !in_app_iff in Hin.
    destruct Hin as [Hin|[Hin|[Hin|Hin]]].
    + apply check_dockerfile_Ok in H1.
      destruct H1 as (en & _ & [[_ ->]|[_ (dir & dd & _ & _ & ->)]]);
        [destruct Hin|].
      destruct (exists_ w _); [destruct Hin|]. destruct Hin as [Heq|[]].
      discriminate Heq.
    + apply check_dockerfile_Ok in H2.
      destruct H2 as (en & _ & [[_ ->]|[_ (dir & dd & _ & _ & ->)]]);
        [destruct Hin|].
      destruct (exists_ w _); [destruct Hin|]. destruct Hin as [Heq|[]].
      discriminate Heq.
    + destruct Hcases as [[_ ->]|[-> (pr & cost & Hmul & Hfmt & ->)]];
        [destruct Hin|].
      destruct Hin as [Heq|[]]. apply format_2f_Ok in Hfmt. subst cost.
      split; [reflexivity|]. exists pr. split; [assumption|]. congruence.
    + destruct (check_team_members _ _ _ _ H4 Hin) as (t & ts & Heq).
      discriminate Heq.
Qed.

(** C6: on a structurally valid document the CPU check yields a
    high-CPU diagnostic exactly when [components.backend.cpu] is a number
    strictly greater than 2.0, and a report holds one exactly then; that
    diagnostic is a warning, its rationale states the cost [cpu * 20]
    formatted with two decimals, and its fix suggests reducing to 1.0 or
    2.0. *)
Theorem high_cpu_warning_iff self w p config :
  structurally_valid self w p config ->
  (forall cpu,
      component_get config "backend" "cpu" (VInt 0) = Ok cpu ->
      formattable_number cpu ->
      exists found,
        check_cpu config = Ok found /\
        ((exists d, In d found /\ is_high_cpu d) <-> number_gt_2 cpu)) /\
  (forall b errs,
      validate self w p = Ok (b, errs) ->
      exists cpu,
        component_get config "backend" "cpu" (VInt 0) = Ok cpu /\
        ((exists d, In d errs /\ is_high_cpu d) <-> number_gt_2 cpu) /\
        (forall d, In d errs -> is_high_cpu d ->
           exists product,
             times_20 cpu product /\
             severity d = "warning" /\
             why_this_matters d =
               [Lit "This will cost approximately £"; Fix2 product;
                Lit "/month just for CPU. Consider starting with 1-2 cores and scaling up if needed."] /\
             fix_ d =
               [Lit "Reduce components.backend.cpu to 1.0 or 2.0 unless you have specific performance requirements"])).
Proof.
  intro Hvalid. split.
  - intros cpu Hget Hnum.
    destruct (check_cpu_returns _ _ Hget Hnum) as (found & Hfound).
    exists found. split; [assumption|].
    destruct (check_cpu_Ok _ _ Hfound) as (cpu' & high & Hget' & Hgt & Hcases).
    rewrite Hget in Hget'. inversion Hget'; subst cpu'.
    pose proof (py_gt_2_spec _ _ Hgt) as Hspec.
    destruct Hcases as [[-> ->] | [-> (pr & cost & _ & _ & ->)]].
    + split.
      * intros (d & [] & _).
      * intro Hn. apply Hspec in Hn. discriminate.
    + split.
      * intros _. apply Hspec. reflexivity.
      * intros _. eexists. split; [left; reflexivity|]. red. eauto.
  - intros b errs Hrun.
    rewrite (validate_conforms _ _ _ _ Hvalid) in Hrun. inv_ok.
    destruct (custom_validations_high_cpu _ _ _ _ Ha)
      as (cpu & high & Hget & Hgt & Hthere & Honly).
    pose proof (py_gt_2_spec _ _ Hgt) as Hspec.
    exists cpu. split; [assumption|]. split; [split|].
    + intros (d & Hin & Hd). apply Hspec. apply (Honly d Hin Hd).
    + intro Hn. apply Hspec in Hn. destruct (Hthere Hn) as (pr & _ & Hin).
      eexists. split; [exact Hin|]. red. eauto.
    + intros d Hin Hd. destruct (Honly d Hin Hd) as (Hh & pr & Hmul & ->).
      exists pr. split.
      * apply py_mul_20_spec; [apply Hspec|]; assumption.
      * repeat split.
Qed.

Lemma high_cpu_warning_iff_witness :
  (exists found,
      check_cpu (sample_config "pilot" (sample_backend true (VFloat 4%float)))
      = Ok found /\
      ((exists d, In d found /\ is_high_cpu d) <-> number_gt_2 (VFloat 4%float))) /\
  (exists cpu,
    component_get (sample_config "pilot" (sample_backend true (VFloat 4%float)))
      "backend" "cpu" (VInt 0) = Ok cpu /\
    ((exists d, In d [high_cpu_warning (VFloat 4%float) (Fix2 (VFloat 80%float))]
                /\ is_high_cpu d) <-> number_gt_2 cpu) /\
    (forall d, In d [high_cpu_warning (VFloat 4%float) (Fix2 (VFloat 80%float))] ->
       is_high_cpu d ->
       exists product,
         times_20 cpu product /\
         severity d = "warning" /\
         why_this_matters d =
           [Lit "This will cost approximately £"; Fix2 product;
            Lit "/month just for CPU. Consider starting with 1-2 cores and scaling up if needed."] /\
         fix_ d =
           [Lit "Reduce components.backend.cpu to 1.0 or 2.0 unless you have specific performance requirements"])).
Proof.
  destruct (high_cpu_warning_iff accept_all high_cpu_world sample_path
              (sample_config "pilot" (sample_backend true (VFloat 4%float)))
              (conj eq_refl eq_refl)) as [Hcheck Hreport].
  split.
  - exact (Hcheck (VFloat 4%float) eq_refl I).
  - exact (Hreport false _ eq_refl).
Defined.

Lemma cpu_absent_default config :
  cpu_absent config ->
  component_get config "backend" "cpu" (VInt 0) = Ok (VInt 0).
Proof.
  intros (top & -> & [Hc | (components & Hc & [Hb | (backend & Hb & Hcpu)])]);
    unfold component_get, py_get, dict_get; simpl; rewrite Hc; simpl.
  - reflexivity.
  - rewrite Hb. reflexivity.
  - rewrite Hb. simpl. rewrite Hcpu. reflexivity.
Qed.

(** A value other than the default was read from the document. *)
Lemma component_get_present config comp key default v :
  component_get config comp key default = Ok v ->
  v <> default ->
  component_present config comp key v.
Proof.
  unfold component_get, py_get, dict_get. intros H Hne.
  destruct config as [| | | | | |top]; simpl in H; try discriminate.
  destruct (lookup "components" top) as [[| | | | | |components]|] eqn:Hc;
    simpl in H; try discriminate.
  - destruct (lookup comp components) as [[| | | | | |c]|] eqn:Hb;
      simpl in H; try discriminate.
    + destruct (lookup key c) as [x|] eqn:Hk.
      * inversion H; subst. exists top, components, c. auto.
      * inversion H; subst. contradiction Hne; reflexivity.
    + inversion H; subst. contradiction Hne; reflexivity.
  - inversion H; subst. contradiction Hne; reflexivity.
Qed.

Lemma component_present_get config comp key default v :
  component_present config comp key v ->
  component_get config comp key default = Ok v.
Proof.
  intros (top & components & c & -> & Hc & Hb & Hk).
  unfold component_get, py_get, dict_get. simpl.
  rewrite Hc. simpl. rewrite Hb. simpl. rewrite Hk. reflexivity.
Qed.

(** C9: when [components.backend.cpu] is absent (also when [components]
    or [components.backend] is missing altogether) the check reads 0 and
    appends nothing, so no report on that document has a high-CPU
    diagnostic; a high-CPU diagnostic in a report means that the key is
    written in the document with a number greater than 2.0. *)
Theorem absent_cpu_reads_zero w config p :
  (cpu_absent config ->
   component_get config "backend" "cpu" (VInt 0) = Ok (VInt 0) /\
   check_cpu config = Ok [] /\
   forall errs d, _custom_validations w config p = Ok errs ->
                  In d errs -> ~ is_high_cpu d) /\
  (forall errs d, _custom_validations w config p = Ok errs ->
                  In d errs -> is_high_cpu d ->
                  exists cpu, cpu_present config cpu /\ number_gt_2 cpu).
Proof.
  assert (Hpresent : forall errs d,
             _custom_validations w config p = Ok errs ->
             In d errs -> is_high_cpu d ->
             exists cpu, component_get config "backend" "cpu" (VInt 0) = Ok cpu /\
                         number_gt_2 cpu).
  { intros errs d Hrun Hin Hd.
    destruct (custom_validations_high_cpu _ _ _ _ Hrun)
      as (cpu & high & Hget & Hgt & _ & Honly).
    destruct (Honly d Hin Hd) as (Hh & _).
    exists cpu. split; [assumption|]. apply (py_gt_2_spec _ _ Hgt). assumption. }
  split.
  - intro Habs. pose proof (cpu_absent_default _ Habs) as Hzero.
    split; [assumption|]. split.
    + unfold check_cpu. rewrite Hzero. reflexivity.
    + intros errs d Hrun Hin Hd.
      destruct (Hpresent errs d Hrun Hin Hd) as (cpu & Hget & Hgt).
      rewrite Hzero in Hget. inversion Hget; subst. simpl in Hgt. lia.
  - intros errs d Hrun Hin Hd.
    destruct (Hpresent errs d Hrun Hin Hd) as (cpu & Hget & Hgt).
    exists cpu. split; [|assumption].
    apply (component_get_present _ _ _ (VInt 0)); [assumption|].
    intros ->. simpl in Hgt. lia.
Qed.

Lemma absent_cpu_reads_zero_witness :
  component_get bare_config "backend" "cpu" (VInt 0) = Ok (VInt 0) /\
  check_cpu bare_config = Ok [] /\
  forall errs d,
    _custom_validations (sample_world None true None) bare_config sample_path
      = Ok errs ->
    In d errs -> ~ is_high_cpu d.
Proof.
  apply (proj1 (absent_cpu_reads_zero (sample_world None true None)
                  bare_config sample_path)).
  exists [("app", VDict [("name", VStr "testapp"); ("team", VStr "pilot")]);
          ("environment", VStr "dev")].
  split; [reflexivity|]. left. reflexivity.
Defined.

(** ** The team registry *)

Lemma mapM_In {A B : Type} (f : A -> result B) (l : list A) (bs : list B) :
  mapM f l = Ok bs ->
  forall b, In b bs <-> exists a, In a l /\ f a = Ok b.
Proof.
  revert bs. induction l as [|x l IH]; simpl; intros bs H b.
  - inversion H; subst. simpl. split; [contradiction | intros (a & [] & _)].
  - inv_ok. simpl. rewrite (IH _ Ha0 b). split.
    + intros [<- | (y & Hy & Hf)]; eauto.
    + intros (y & [<- | Hy] & Hf); [left; congruence | right; eauto].
Qed.

Lemma py_eq_str s x : py_eq (VStr s) x = true -> x = VStr s.
Proof.
  destruct x; simpl; try discriminate.
  intro H. apply String.eqb_eq in H. congruence.
Qed.

Lemma set_add_In_str acc v s :
  In (VStr s) (set_add acc v) <-> In (VStr s) acc \/ v = VStr s.
Proof.
  unfold set_add, set_mem. destruct (existsb (py_eq v) acc) eqn:E.
  - split; [auto|]. intros [H | ->]; [assumption|].
    apply existsb_exists in E. destruct E as (x & Hx & Heq).
    apply py_eq_str in Heq. congruence.
  - rewrite in_app_iff. simpl. split.
    + intros [H | [H | []]]; auto.
    + intros [H | ->]; auto.
Qed.

Lemma fold_set_add_In_str l acc s :
  In (VStr s) (fold_left set_add l acc) <-> In (VStr s) acc \/ In (VStr s) l.
Proof.
  revert acc. induction l as [|v l IH]; simpl; intro acc.
  - tauto.
  - rewrite IH, set_add_In_str. intuition congruence.
Qed.

Lemma team_of_str app s :
  team_of app = Ok (VStr s) <-> py_get app "team" VNone = Ok (VStr s).
Proof.
  unfold team_of. split.
  - intro H. inv_ok. assumption.
  - intros ->. reflexivity.
Qed.

(** The strings of the set are the teams of the registry's entries. *)
Lemma known_teams_In_str registry registered s :
  known_teams registry = Ok registered ->
  (In (VStr s) registered <->
   exists items app,
     registry_apps registry = Ok items /\ In app items /\
     py_get app "team" VNone = Ok (VStr s)).
Proof.
  unfold known_teams. intro H. inv_ok.
  rewrite fold_set_add_In_str, (mapM_In _ _ _ Ha0). simpl. split.
  - intros [[] | (app & Hin & Ht)]. apply team_of_str in Ht. eauto.
  - intros (items & app & Hitems & Hin & Ht). right.
    rewrite Ha in Hitems. inversion Hitems; subst.
    exists app. split; [assumption|]. apply team_of_str. assumption.
Qed.

Lemma as_str_names registered names s :
  mapM as_str registered = Ok names ->
  (In s names <-> In (VStr s) registered).
Proof.
  intro H. rewrite (mapM_In _ _ _ H). split.
  - intros (v & Hin & Hv). destruct v; simpl in Hv; try discriminate.
    congruence.
  - intro Hin. exists (VStr s). auto.
Qed.




(** The diagnostics of the other checks are no team warnings. *)
Lemma team_warning_from_check_team w config p errs d :
  _custom_validations w config p = Ok errs ->
  In d errs -> is_team_warning d ->
  exists found, check_team w config = Ok found /\ In d found.
Proof.
  intros H Hin (t & ts & ->).
  apply custom_validations_Ok in H.
  destruct H as (e1 & e2 & e3 & e4 & H1 & H2 & H3 & H4 & ->).
  rewrite !in_app_iff in Hin. destruct Hin as [Hin|[Hin|[Hin|Hin]]].
  - apply check_dockerfile_Ok in H1.
    destruct H1 as (en & _ & [[_ ->]|[_ (dir & dd & _ & _ & ->)]]);
      [destruct Hin|].
    destruct (exists_ w (joinpath dd _)); [destruct Hin|].
    destruct Hin as [Heq|[]]. discriminate Heq.
  - apply check_dockerfile_Ok in H2.
    destruct H2 as (en & _ & [[_ ->]|[_ (dir & dd & _ & _ & ->)]]);
      [destruct Hin|].
    destruct (exists_ w (joinpath dd _)); [destruct Hin|].
    destruct Hin as [Heq|[]]. discriminate Heq.
  - apply check_cpu_Ok in H3.
    destruct H3 as (cpu & high & _ & _ & [[_ ->]|[_ (pr & cost & _ & _ & ->)]]);
      [destruct Hin|].
    destruct Hin as [Heq|[]]. discriminate Heq.
  - eauto.
Qed.





(** ** The backend Dockerfile *)













(** ** The fix of a schema violation *)

Lemma split_app_sep sep pre rest :
  contains sep pre = false ->
  split sep (pre ++ String sep rest) = pre :: split sep rest.
Proof.
  induction pre as [|c pre IH]; simpl; intro H.
  - rewrite Ascii.eqb_refl. reflexivity.
  - apply orb_false_iff in H. destruct H as [Hc Hpre].
    rewrite Hc, (IH Hpre). reflexivity.
Qed.

(** The name that jsonschema quotes in [... is a required property]. *)
Lemma second_quoted name rest :
  contains "'" name = false ->
  second (split "'" ("'" ++ name ++ String "'" rest)) = Ok name.
Proof.
  intro H. change ("'" ++ name ++ String "'" rest)
    with ("" ++ String "'" (name ++ String "'" rest)).
  rewrite split_app_sep by reflexivity.
  rewrite split_app_sep by assumption. reflexivity.
Qed.

Lemma conventional_pattern sch :
  has_key "pattern" sch && is_name_pattern (dict_get sch "pattern" VNone) = true
  <-> lookup "pattern" sch = Some (VStr name_pattern).
Proof.
  unfold has_key, dict_get.
  destruct (lookup "pattern" sch) as [v|]; simpl; [|split; discriminate].
  destruct v; simpl; try (split; discriminate).
  rewrite String.eqb_eq. split; congruence.
Qed.

(** C4 (amended): the fix is chosen in this order: the example-driven
    instruction when the violated schema has the conventional identifier
    pattern; else the missing field's name when a required field is
    missing; else the allowed values, comma-joined, when the violated
    keyword is [enum]; else the expected type on a type mismatch; else the
    range when the violated schema has a minimum or a maximum; else the
    generic fallback. *)
Theorem fix_suggestion_precedence e : fix_precedence enum_violated e.
Proof.
  unfold fix_precedence, enum_violated, _get_fix_suggestion.
  destruct (has_key "pattern" (schema e)
            && is_name_pattern (dict_get (schema e) "pattern" VNone)) eqn:Hp.
  - apply conventional_pattern in Hp.
    repeat split; intros; try reflexivity; contradiction.
  - assert (Hn : lookup "pattern" (schema e) <> Some (VStr name_pattern)).
    { intro H. apply conventional_pattern in H. congruence. }
    split; [intro; contradiction|].
    split; [|split; [|split; [|split]]].
    + intros _ Hreq name Hname Hmsg. rewrite Hreq. simpl. rewrite Hmsg.
      change ("'" ++ name ++ "' is a required property")
        with ("'" ++ name ++ String "'" " is a required property").
      rewrite (second_quoted _ _ Hname). reflexivity.
    + intros _ Hreq Henum allowed Hallowed.
      apply String.eqb_neq in Hreq. rewrite Hreq, Henum. simpl.
      unfold dict_get. rewrite Hallowed. reflexivity.
    + intros _ Hreq Henum Htype.
      apply String.eqb_neq in Hreq, Henum. rewrite Hreq, Henum, Htype.
      reflexivity.
    + intros _ Hreq Henum Htype Hb.
      apply String.eqb_neq in Hreq, Henum, Htype. rewrite Hreq, Henum, Htype.
      destruct Hb as [Hb | Hb]; rewrite Hb; [|rewrite orb_true_r]; reflexivity.
    + intros _ Hreq Henum Htype Hb.
      apply String.eqb_neq in Hreq, Henum, Htype. rewrite Hreq, Henum, Htype.
      destruct (has_key "minimum" (schema e)) eqn:Hmin;
        [contradiction Hb; left; reflexivity|].
      destruct (has_key "maximum" (schema e)) eqn:Hmax;
        [contradiction Hb; right; reflexivity|].
      reflexivity.
Qed.

Lemma fix_suggestion_precedence_witness :
  _get_fix_suggestion app_required = Ok (required_fix "app") /\
  _get_fix_suggestion type_mismatch_on_enum = Ok (type_fix (VStr "string")).
Proof.
  split.
  - apply (proj1 (proj2 (fix_suggestion_precedence app_required)));
      [discriminate | reflexivity | reflexivity | reflexivity].
  - apply (proj1 (proj2 (proj2 (proj2
             (fix_suggestion_precedence type_mismatch_on_enum)))));
      [discriminate | discriminate | discriminate | reflexivity].
Defined.

(** C4 (as stated): with rule 3 taken whenever an enum constraint
    exists, the order fails on a type mismatch at a field that has an
    enumeration: the code names the expected type, where rule 3, which
    comes before rule 4, asks for the allowed values. *)
Lemma fix_precedence_enum_exists_fails :
  ~ fix_precedence enum_exists type_mismatch_on_enum.
Proof.
  intros (_ & _ & Henum & _).
  specialize (Henum ltac:(discriminate) ltac:(discriminate) eq_refl
                    [VStr "dev"; VStr "staging"; VStr "prod"] eq_refl).
  discriminate Henum.
Qed.

(** ** Validity of a report, and exceptions that escape *)

(** The flag of a report is [len(errors) == 0]. *)
Lemma is_valid_iff_no_diagnostic self w p b errs :
  validate self w p = Ok (b, errs) -> (b = true <-> errs = []).
Proof.
  intro Hrun.
  destruct (validate_Ok_cases _ _ _ _ _ Hrun)
    as [(_ & -> & ->)
       |[(msg & _ & -> & ->)
        |[(config & e & d & _ & _ & _ & -> & ->)
         |(config & _ & _ & ->)]]];
    try (split; discriminate).
  unfold is_empty. destruct errs; simpl; split; intro H;
    try reflexivity; discriminate.
Qed.

(** C1 (the code on a warning-only report): the sample document with
    CPU 4.0 passes the schema and the Dockerfile check; its only
    diagnostic is the high-CPU warning, no diagnostic has severity error
    or critical, and still [validate] answers [is_valid = false]. *)
Theorem warning_only_report_is_invalid :
  validate accept_all high_cpu_world sample_path
    = Ok (false, [high_cpu_warning (VFloat 4%float) (Fix2 (VFloat 80%float))]) /\
  severity (high_cpu_warning (VFloat 4%float) (Fix2 (VFloat 80%float))) = "warning".
Proof.
  split; reflexivity.
Qed.

(** C2 (the code on a registry that does not load): with a registry file
    that exists and is empty, [registry.get] raises [AttributeError]; with
    one that is not well-formed YAML, [yaml.safe_load] raises [YAMLError];
    both leave [validate] as exceptions, where a missing registry file is
    passed over in silence. *)
Theorem registry_failure_escapes :
  validate accept_all empty_registry_world sample_path = Raise AttributeError /\
  validate accept_all broken_registry_world sample_path
    = Raise (YAMLError "mapping values are not allowed here") /\
  validate accept_all
    (sample_world
       (Some (File (YamlDoc (sample_config "payments"
                               (sample_backend true (VFloat 1%float))))))
       true None) sample_path
    = Ok (true, []).
Proof.
  repeat split; reflexivity.
Qed.

(* ================================================================== *)
(** * Further properties of the validator *)

(** ** Exceptions that can leave a run *)

Lemma bind_Raise {A B : Type} (m : result A) (k : A -> result B) (x : exn) :
  bind m k = Raise x -> m = Raise x \/ exists a, m = Ok a /\ k a = Raise x.
Proof.
  destruct m as [a|e]; simpl; intro H;
    [right; eauto | left; inversion H; reflexivity].
Qed.

(** Splits hypotheses [x <- m ;; k = Raise e] into the step that raised. *)
Ltac inv_raise :=
  repeat match goal with
  | H : bind _ _ = Raise _ |- _ =>
      let a := fresh "a" in
      let Ha := fresh "Ha" in
      apply bind_Raise in H; destruct H as [H | (a & Ha & H)]
  | H : Ok _ = Raise _ |- _ => discriminate H
  | H : (if ?c then _ else _) = Raise _ |- _ =>
      let E := fresh "E" in destruct c eqn:E
  end.

Lemma py_get_Raise o k default x :
  py_get o k default = Raise x -> x = AttributeError.
Proof.
  destruct o; simpl; intro H; inversion H; reflexivity.
Qed.

Lemma component_get_Raise config comp key default x :
  component_get config comp key default = Raise x -> x = AttributeError.
Proof.
  unfold component_get. intro H. inv_raise; eapply py_get_Raise; eassumption.
Qed.

Lemma check_dockerfile_Raise w config app_dir comp default_dir missing x :
  check_dockerfile w config app_dir comp default_dir missing = Raise x ->
  x = AttributeError \/ x = TypeError.
Proof.
  unfold check_dockerfile. intro H. inv_raise.
  - left. eapply component_get_Raise; eassumption.
  - left. eapply component_get_Raise; eassumption.
  - right. destruct a0; simpl in H; inversion H; reflexivity.
Qed.

Lemma check_cpu_Raise config x :
  check_cpu config = Raise x ->
  x = AttributeError \/ x = TypeError \/
  (x = OverflowError /\
   exists z, component_get config "backend" "cpu" (VInt 0) = Ok (VInt z) /\
             2 < z /\ 2 ^ 1024 - 2 ^ 970 <= Z.abs (z * 20)).
Proof.
  unfold check_cpu. intro H. inv_raise.
  - left. eapply component_get_Raise; eassumption.
  - right; left. destruct a; simpl in H; inversion H; reflexivity.
  - destruct a; simpl in Ha0, H; discriminate.
  - destruct a as [|c|z|f|s|l|d]; simpl in Ha0, Ha1; try discriminate.
    + destruct c; discriminate.
    + inversion Ha1; subst. unfold format_2f in H.
      destruct (Z.abs (z * 20) <? 2 ^ 1024 - 2 ^ 970) eqn:Hb; [discriminate|].
      inversion H; subst. right; right. split; [reflexivity|].
      exists z. injection Ha0 as Hgt.
      apply Z.ltb_lt in Hgt. apply Z.ltb_ge in Hb. auto.
    + inversion Ha1; subst. discriminate.
Qed.

Lemma mapM_Raise {A B : Type} (f : A -> result B) (l : list A) x :
  mapM f l = Raise x -> exists a, In a l /\ f a = Raise x.
Proof.
  induction l as [|a l IH]; simpl; intro H; [discriminate|].
  inv_raise.
  - exists a. auto.
  - destruct (IH H) as (y & Hy & Hf). eauto.
Qed.

Lemma known_teams_Raise registry x :
  known_teams registry = Raise x -> x = AttributeError \/ x = TypeError.
Proof.
  unfold known_teams, registry_apps. intro H. inv_raise.
  - left. eapply py_get_Raise; eassumption.
  - right. destruct a; simpl in H; inversion H; reflexivity.
  - apply mapM_Raise in H. destruct H as (app & _ & H).
    unfold team_of in H. inv_raise.
    + left. eapply py_get_Raise; eassumption.
    + inversion H. auto.
Qed.

Lemma check_team_Raise w config x :
  check_team w config = Raise x ->
  x = AttributeError \/ x = TypeError \/
  (x = IsADirectoryError /\ fs w (path_str (registry_path w)) = Some Directory) \/
  (exists msg, x = YAMLError msg /\
               fs w (path_str (registry_path w)) = Some (File (YamlFails msg))).
Proof.
  unfold check_team, app_team. intro H. inv_raise.
  - left. eapply py_get_Raise; eassumption.
  - left. eapply py_get_Raise; eassumption.
  - unfold open_and_load, exists_ in *.
    destruct (fs w (path_str (registry_path w))) as [[|[msg|v]]|];
      try discriminate; inversion H; subst.
    + right; right; left. auto.
    + right; right; right. eauto.
  - destruct (known_teams_Raise _ _ H); auto.
  - right; left. unfold py_in in H. destruct (hashable _); inversion H; reflexivity.
  - right; left. apply mapM_Raise in H. destruct H as (v & _ & H).
    destruct v; simpl in H; inversion H; reflexivity.
Qed.

Lemma get_fix_suggestion_Raise e x :
  _get_fix_suggestion e = Raise x ->
  (x = IndexError /\ validator e = "required" /\ contains "'" (message e) = false) \/
  (x = TypeError /\ validator e = "enum" /\
   py_iter (dict_get (schema e) "enum" (VList [])) = Raise TypeError).
Proof.
  unfold _get_fix_suggestion. intro H.
  destruct (has_key "pattern" (schema e) && _); [discriminate|].
  destruct (validator e =? "required")%string eqn:E1.
  - apply String.eqb_eq in E1. left.
    destruct (contains "'" (message e)) eqn:Hq.
    + destruct (second_split_returns _ Hq) as (y & Hy). rewrite Hy in H. discriminate.
    + inv_raise. destruct (split "'" (message e)) as [|h [|y t]];
        simpl in H; inversion H; auto.
  - destruct (validator e =? "enum")%string eqn:E2.
    + apply String.eqb_eq in E2. right. inv_raise.
      assert (x = TypeError).
      { destruct (dict_get (schema e) "enum" (VList []));
          simpl in H; inversion H; reflexivity. }
      subst. auto.
    + destruct (validator e =? "type")%string; [discriminate|].
      destruct (has_key "minimum" (schema e) || has_key "maximum" (schema e));
        discriminate.
Qed.

Lemma custom_validations_Raise w config p x :
  _custom_validations w config p = Raise x ->
  x = AttributeError \/ x = TypeError \/
  (x = OverflowError /\
   exists z, component_get config "backend" "cpu" (VInt 0) = Ok (VInt z) /\
             2 < z /\ 2 ^ 1024 - 2 ^ 970 <= Z.abs (z * 20)) \/
  (x = IsADirectoryError /\ fs w (path_str (registry_path w)) = Some Directory) \/
  (exists msg, x = YAMLError msg /\
               fs w (path_str (registry_path w)) = Some (File (YamlFails msg))).
Proof.
  unfold _custom_validations. intro H. inv_raise.
  - destruct (check_dockerfile_Raise _ _ _ _ _ _ _ H); auto.
  - destruct (check_dockerfile_Raise _ _ _ _ _ _ _ H); auto.
  - destruct (check_cpu_Raise _ _ H) as [|[|]]; auto.
  - destruct (check_team_Raise _ _ _ H) as [|[|[|]]]; auto 6.
Qed.

(** Where an exception of [validate] comes from. *)
Lemma validate_Raise_cases self w p x :
  validate self w p = Raise x ->
  (x = IsADirectoryError /\ fs w (path_str p) = Some Directory) \/
  (exists config,
      open_and_load w p = Ok config /\
      jsonschema_validate self config = SchemaInvalid /\ x = SchemaError) \/
  (exists config e,
      open_and_load w p = Ok config /\
      jsonschema_validate self config = Violates e /\
      _get_fix_suggestion e = Raise x) \/
  (exists config,
      structurally_valid self w p config /\
      _custom_validations w config p = Raise x).
Proof.
  unfold validate, structurally_valid, open_and_load.
  destruct (fs w (path_str p)) as [[|[msg|config]]|] eqn:F; simpl; intro H;
    try discriminate.
  - inversion H; subst. left. auto.
  - destruct (jsonschema_validate self config) as [|e|] eqn:S.
    + inv_raise. do 3 right. exists config. auto.
    + right; right; left. unfold _explain_validation_error in H. inv_raise.
      exists config, e. auto.
    + inversion H; subst. right; left. exists config. auto.
Qed.

(** X1: of the exceptions of the load of a file, [FileNotFoundError]
    never leaves [validate]; a [YAMLError] that leaves it is the parse
    failure of the registry file, on a document that loaded and passed
    the schema; an [IsADirectoryError] means that the document path or the
    registry path is a directory. *)
Theorem escaping_load_errors self w p x :
  validate self w p = Raise x ->
  x <> FileNotFoundError /\
  (forall msg,
      x = YAMLError msg ->
      fs w (path_str (registry_path w)) = Some (File (YamlFails msg)) /\
      exists config, structurally_valid self w p config) /\
  (x = IsADirectoryError ->
   fs w (path_str p) = Some Directory \/
   fs w (path_str (registry_path w)) = Some Directory).
Proof.
  intro H.
  assert (Hgen : forall y : exn,
             (y = AttributeError \/ y = TypeError \/ y = IndexError \/
              y = OverflowError \/ y = SchemaError) ->
             y <> FileNotFoundError /\
             (forall msg,
                 y = YAMLError msg ->
                 fs w (path_str (registry_path w)) = Some (File (YamlFails msg)) /\
                 exists config, structurally_valid self w p config) /\
             (y = IsADirectoryError ->
              fs w (path_str p) = Some Directory \/
              fs w (path_str (registry_path w)) = Some Directory)).
  { intros y [->|[->|[->|[->| ->]]]]; split; try discriminate;
      split; intros; discriminate. }
  destruct (validate_Raise_cases _ _ _ _ H)
    as [(-> & Hdir)
       |[(config & _ & _ & ->)
        |[(config & e & _ & _ & Hfix)
         |(config & Hvalid & Hcustom)]]].
  - split; [discriminate|]. split; [intros; discriminate|]. auto.
  - apply Hgen. auto 6.
  - destruct (get_fix_suggestion_Raise _ _ Hfix) as [(-> & _)|(-> & _)];
      apply Hgen; auto.
  - destruct (custom_validations_Raise _ _ _ _ Hcustom)
      as [->|[->|[(-> & _)|[(-> & Hdir)|(msg & -> & Hfile)]]]];
      try (apply Hgen; solve [auto 6]).
    + split; [discriminate|]. split; [intros; discriminate|]. auto.
    + split; [discriminate|]. split; [|intros; discriminate].
      intros msg' Heq. inversion Heq; subst. eauto.
Qed.

Lemma escaping_load_errors_witness :
  fs broken_registry_world (path_str (registry_path broken_registry_world))
    = Some (File (YamlFails "mapping values are not allowed here")) /\
  exists config, structurally_valid accept_all broken_registry_world sample_path config.
Proof.
  exact (proj1 (proj2 (escaping_load_errors accept_all broken_registry_world
                         sample_path
                         (YAMLError "mapping values are not allowed here")
                         eq_refl))
               "mapping values are not allowed here" eq_refl).
Defined.


(** ** The diagnostics of the custom checks *)

Lemma check_dockerfile_at_most_one w config app_dir comp default_dir missing errs :
  check_dockerfile w config app_dir comp default_dir missing = Ok errs ->
  errs = [] \/ exists path, errs = [missing path].
Proof.
  intro H. apply check_dockerfile_Ok in H.
  destruct H as (en & _ & [[_ ->]|[_ (dir & dd & _ & _ & ->)]]); [auto|].
  destruct (exists_ w _); eauto.
Qed.

Lemma check_team_at_most_one w config errs :
  check_team w config = Ok errs ->
  errs = [] \/ exists team names, errs = [team_not_registered team names].
Proof.
  unfold check_team. intro H. inv_ok; eauto.
Qed.

(** X3: the diagnostics of a structurally valid document come in the
    order of the checks, at most one of each: the backend Dockerfile, the
    frontend Dockerfile, the CPU warning, the team warning; so a report
    never holds more than four. *)
Theorem report_order self w p config b errs :
  structurally_valid self w p config ->
  validate self w p = Ok (b, errs) ->
  (exists e1 e2 e3 e4,
      errs = (e1 ++ e2 ++ e3 ++ e4)%list /\
      (e1 = [] \/ exists path, e1 = [backend_dockerfile_missing path]) /\
      (e2 = [] \/ exists path, e2 = [frontend_dockerfile_missing path]) /\
      (e3 = [] \/ exists cpu cost, e3 = [high_cpu_warning cpu cost]) /\
      (e4 = [] \/ exists team names, e4 = [team_not_registered team names])) /\
  (List.length errs <= 4)%nat.
Proof.
  intros Hvalid Hrun.
  rewrite (validate_conforms _ _ _ _ Hvalid) in Hrun. inv_ok.
  apply custom_validations_Ok in Ha.
  destruct Ha as (e1 & e2 & e3 & e4 & H1 & H2 & H3 & H4 & ->).
  apply check_dockerfile_at_most_one in H1, H2.
  apply check_team_at_most_one in H4.
  assert (H3' : e3 = [] \/ exists cpu cost, e3 = [high_cpu_warning cpu cost]).
  { apply check_cpu_Ok in H3.
    destruct H3 as (cpu & high & _ & _ & [[_ ->]|[_ (pr & cost & _ & _ & ->)]]);
      eauto. }
  split.
  - exists e1, e2, e3, e4. auto.
  - rewrite !length_app.
    destruct H1 as [->|(? & ->)], H2 as [->|(? & ->)],
             H3' as [->|(? & ? & ->)], H4 as [->|(? & ? & ->)]; simpl; lia.
Qed.

Lemma report_order_witness :
  (List.length
     [backend_dockerfile_missing (parse_path "apps/pilot/testapp/backend/Dockerfile")]
   <= 4)%nat.
Proof.
  exact (proj2 (report_order accept_all (no_dockerfile_world true) sample_path
                  (sample_config "pilot" (sample_backend true (VFloat 1%float)))
                  false _ (conj eq_refl eq_refl) eq_refl)).
Defined.



Lemma py_joinpath_Ok app_dir dir d :
  py_joinpath app_dir dir = Ok d -> exists s, dir = VStr s /\ d = joinpath app_dir s.
Proof.
  destruct dir; simpl; intro H; try discriminate. inversion H. eauto.
Qed.

(** The one diagnostic of a Dockerfile check says that the component is
    enabled and that its Dockerfile is missing. *)
Lemma check_dockerfile_sound w config app_dir comp default_dir missing errs d :
  check_dockerfile w config app_dir comp default_dir missing = Ok errs ->
  In d errs ->
  exists enabled dir,
    component_get config comp "enabled" VNone = Ok enabled /\
    truthy enabled = true /\
    component_get config comp "directory" (VStr default_dir) = Ok (VStr dir) /\
    exists_ w (joinpath (joinpath app_dir dir) "Dockerfile") = false /\
    d = missing (joinpath (joinpath app_dir dir) "Dockerfile").
Proof.
  intros H Hin. apply check_dockerfile_Ok in H.
  destruct H as (en & Hen & [[_ ->]|[Ht (dir & dd & Hdir & Hjoin & ->)]]);
    [destruct Hin|].
  apply py_joinpath_Ok in Hjoin. destruct Hjoin as (s & -> & ->).
  destruct (exists_ w _) eqn:Hex; [destruct Hin|].
  destruct Hin as [<-|[]]. exists en, s. auto.
Qed.

(** X5: a severity-error diagnostic in the report of a structurally valid
    document is the missing-Dockerfile diagnostic of a component that is
    enabled and has no file at its Dockerfile path. *)
Theorem error_diagnostic_sound self w p config b errs d :
  structurally_valid self w p config ->
  validate self w p = Ok (b, errs) ->
  In d errs ->
  severity d = "error" ->
  exists comp default_dir missing enabled dir,
    ((comp = "backend" /\ default_dir = "./backend" /\
      missing = backend_dockerfile_missing) \/
     (comp = "frontend" /\ default_dir = "./frontend" /\
      missing = frontend_dockerfile_missing)) /\
    component_get config comp "enabled" VNone = Ok enabled /\
    truthy enabled = true /\
    component_get config comp "directory" (VStr default_dir) = Ok (VStr dir) /\
    exists_ w (joinpath (joinpath (parent p) dir) "Dockerfile") = false /\
    d = missing (joinpath (joinpath (parent p) dir) "Dockerfile").
Proof.
  intros Hvalid Hrun Hin Hsev.
  rewrite (validate_conforms _ _ _ _ Hvalid) in Hrun. inv_ok.
  apply custom_validations_Ok in Ha.
  destruct Ha as (e1 & e2 & e3 & e4 & H1 & H2 & H3 & H4 & ->).
  rewrite !in_app_iff in Hin. destruct Hin as [Hin|[Hin|[Hin|Hin]]].
  - destruct (check_dockerfile_sound _ _ _ _ _ _ _ _ H1 Hin)
      as (en & dir & ? & ? & ? & ? & ?).
    exists "backend", "./backend", backend_dockerfile_missing, en, dir. auto 10.
  - destruct (check_dockerfile_sound _ _ _ _ _ _ _ _ H2 Hin)
      as (en & dir & ? & ? & ? & ? & ?).
    exists "frontend", "./frontend", frontend_dockerfile_missing, en, dir. auto 10.
  - apply check_cpu_Ok in H3.
    destruct H3 as (cpu & high & _ & _ & [[_ ->]|[_ (pr & cost & _ & _ & ->)]]);
      [destruct Hin|].
    destruct Hin as [<-|[]]. discriminate Hsev.
  - destruct (check_team_members _ _ _ _ H4 Hin) as (t & ts & ->).
    discriminate Hsev.
Qed.

Lemma error_diagnostic_sound_witness :
  exists comp default_dir missing enabled dir,
    ((comp = "backend" /\ default_dir = "./backend" /\
      missing = backend_dockerfile_missing) \/
     (comp = "frontend" /\ default_dir = "./frontend" /\
      missing = frontend_dockerfile_missing)) /\
    component_get frontend_config comp "enabled" VNone = Ok enabled /\
    truthy enabled = true /\
    component_get frontend_config comp "directory" (VStr default_dir)
      = Ok (VStr dir) /\
    exists_ frontend_world
      (joinpath (joinpath (parent sample_path) dir) "Dockerfile") = false /\
    frontend_dockerfile_missing (parse_path "apps/pilot/testapp/frontend/Dockerfile")
      = missing (joinpath (joinpath (parent sample_path) dir) "Dockerfile").
Proof.
  exact (error_diagnostic_sound accept_all frontend_world sample_path
           frontend_config false _ _
           (conj eq_refl eq_refl) eq_refl (or_introl eq_refl) eq_refl).
Defined.

Lemma check_team_sound w config errs d :
  check_team w config = Ok errs ->
  In d errs ->
  exists team registry registered names,
    app_team config = Ok team /\
    truthy team = true /\
    open_and_load w (registry_path w) = Ok registry /\
    known_teams registry = Ok registered /\
    set_mem team registered = false /\
    py_eq team (VStr "pilot") = false /\
    mapM as_str registered = Ok names /\
    d = team_not_registered team (set_order w names).
Proof.
  unfold check_team. intros H Hin. inv_ok; simpl in Hin; try contradiction.
  destruct Hin as [<-|[]].
  apply andb_true_iff in E1. destruct E1 as [Hk Hp].
  apply negb_true_iff in Hk, Hp.
  unfold py_in in Ha2. destruct (hashable a); [|discriminate].
  inversion Ha2; subst.
  exists a, a0, a1, a3. auto 10.
Qed.

(** X6: a team warning in a report says what it means: [app.team] is
    set, the registry file loaded, the team is not a member of the set of
    the registry's teams and is not [pilot] (so neither [pilot] nor a
    registered team is ever warned about), and the teams that the fix
    names are the members of that set, all of them strings. *)
Theorem team_warning_sound self w p config b errs d :
  structurally_valid self w p config ->
  validate self w p = Ok (b, errs) ->
  In d errs ->
  is_team_warning d ->
  exists team registry registered names,
    app_team config = Ok team /\
    truthy team = true /\
    team <> VStr "pilot" /\
    open_and_load w (registry_path w) = Ok registry /\
    known_teams registry = Ok registered /\
    set_mem team registered = false /\
    registered = map VStr names /\
    d = team_not_registered team (set_order w names).
Proof.
  intros Hvalid Hrun Hin Hd.
  rewrite (validate_conforms _ _ _ _ Hvalid) in Hrun. inv_ok.
  destruct (team_warning_from_check_team _ _ _ _ _ Ha Hin Hd) as (found & Hf & Hin').
  destruct (check_team_sound _ _ _ _ Hf Hin')
    as (team & registry & registered & names & Ht & Htr & Hl & Hk & Hm & Hp & Hn & ->).
  exists team, registry, registered, names.
  repeat (split; [assumption|]). split; [|split; [assumption|]].
  - intros ->. discriminate Hp.
  - split; [assumption|]. split; [assumption|]. split; [|reflexivity].
    clear - Hn. revert names Hn. induction registered as [|v r IH]; simpl; intros names H.
    + inversion H. reflexivity.
    + inv_ok. destruct v; simpl in Ha; try discriminate. inversion Ha; subst.
      simpl. f_equal. apply IH. assumption.
Qed.

Lemma team_warning_sound_witness :
  exists team registry registered names,
    app_team (sample_config "payments" (sample_backend true (VFloat 1%float)))
      = Ok team /\
    truthy team = true /\
    team <> VStr "pilot" /\
    open_and_load registry_world (registry_path registry_world) = Ok registry /\
    known_teams registry = Ok registered /\
    set_mem team registered = false /\
    registered = map VStr names /\
    team_not_registered (VStr "payments") ["platform"; "data"]
      = team_not_registered team (set_order registry_world names).
Proof.
  exact (team_warning_sound accept_all registry_world sample_path
           (sample_config "payments" (sample_backend true (VFloat 1%float)))
           false _ _ (conj eq_refl eq_refl) eq_refl (or_introl eq_refl)
           (ex_intro _ (VStr "payments")
              (ex_intro _ ["platform"; "data"] eq_refl))).
Defined.

(** The strings of a set are pairwise distinct. *)
Lemma strs_of_app a b : strs_of (a ++ b) = (strs_of a ++ strs_of b)%list.
Proof.
  unfold strs_of. apply flat_map_app.
Qed.

Lemma strs_of_In s acc : In s (strs_of acc) <-> In (VStr s) acc.
Proof.
  unfold strs_of. rewrite in_flat_map. split.
  - intros (v & Hin & Hs). destruct v; simpl in Hs; try contradiction.
    destruct Hs as [->|[]]. assumption.
  - intro Hin. exists (VStr s). simpl. auto.
Qed.

Lemma set_add_strs_NoDup acc v :
  NoDup (strs_of acc) -> NoDup (strs_of (set_add acc v)).
Proof.
  intro H. unfold set_add. destruct (set_mem v acc) eqn:E; [assumption|].
  rewrite strs_of_app. destruct v; simpl; rewrite ?app_nil_r; try assumption.
  apply NoDup_app; [assumption | repeat constructor; simpl; tauto |].
  intros x Hx Hin. destruct Hin as [Heq|[]]. subst x. apply strs_of_In in Hx.
  unfold set_mem in E.
  assert (Ht : existsb (py_eq (VStr s)) acc = true).
  { apply existsb_exists. exists (VStr s). split; [assumption|].
    simpl. apply String.eqb_refl. }
  congruence.
Qed.

Lemma fold_set_add_strs_NoDup l acc :
  NoDup (strs_of acc) -> NoDup (strs_of (fold_left set_add l acc)).
Proof.
  revert acc. induction l as [|v l IH]; simpl; intros acc H; [assumption|].
  apply IH, set_add_strs_NoDup, H.
Qed.

Lemma as_str_strs_of registered names :
  mapM as_str registered = Ok names -> names = strs_of registered.
Proof.
  revert names. induction registered as [|v r IH]; simpl; intros names H.
  - inversion H. reflexivity.
  - inv_ok. destruct v; simpl in Ha; try discriminate. inversion Ha; subst.
    simpl. f_equal. apply IH. assumption.
Qed.

(** X7: the fix of a team warning names every team of the registry once,
    also when several entries of the registry share a team. *)
Theorem team_warning_lists_once self w p config b errs d :
  structurally_valid self w p config ->
  validate self w p = Ok (b, errs) ->
  (forall l, Permutation (set_order w l) l) ->
  In d errs ->
  is_team_warning d ->
  exists team registry names,
    open_and_load w (registry_path w) = Ok registry /\
    d = team_not_registered team names /\
    NoDup names /\
    (forall s, In s names <->
               exists items app,
                 registry_apps registry = Ok items /\ In app items /\
                 py_get app "team" VNone = Ok (VStr s)).
Proof.
  intros Hvalid Hrun Hperm Hin Hd.
  rewrite (validate_conforms _ _ _ _ Hvalid) in Hrun. inv_ok.
  destruct (team_warning_from_check_team _ _ _ _ _ Ha Hin Hd) as (found & Hf & Hin').
  destruct (check_team_sound _ _ _ _ Hf Hin')
    as (team & registry & registered & names & _ & _ & Hl & Hk & _ & _ & Hn & ->).
  exists team, registry, (set_order w names).
  split; [assumption|]. split; [reflexivity|]. split.
  - apply (Permutation_NoDup (Permutation_sym (Hperm names))).
    rewrite (as_str_strs_of _ _ Hn).
    unfold known_teams in Hk. inv_ok.
    apply fold_set_add_strs_NoDup. constructor.
  - intro s. rewrite <- (known_teams_In_str _ _ s Hk).
    rewrite <- (as_str_names _ _ s Hn).
    split; apply Permutation_in; [apply Hperm | apply Permutation_sym, Hperm].
Qed.

Lemma team_warning_lists_once_witness :
  exists team registry names,
    open_and_load shared_team_world (registry_path shared_team_world) = Ok registry /\
    team_not_registered (VStr "payments") ["platform"; "data"]
      = team_not_registered team names /\
    NoDup names /\
    (forall s, In s names <->
               exists items app,
                 registry_apps registry = Ok items /\ In app items /\
                 py_get app "team" VNone = Ok (VStr s)).
Proof.
  exact (team_warning_lists_once accept_all shared_team_world sample_path
           (sample_config "payments" (sample_backend true (VFloat 1%float)))
           false _ _ (conj eq_refl eq_refl) eq_refl
           (fun l => Permutation_refl l) (or_introl eq_refl)
           (ex_intro _ (VStr "payments")
              (ex_intro _ ["platform"; "data"] eq_refl))).
Defined.

(** ** Explanations *)

Lemma split_no_sep sep s : contains sep s = false -> split sep s = [s].
Proof.
  induction s as [|c r IH]; simpl; intro H; [reflexivity|].
  apply orb_false_iff in H. destruct H as [Hc Hr].
  rewrite Hc, (IH Hr). reflexivity.
Qed.


Lemma replace_removes a b s :
  a <> b -> contains a (replace a b s) = false.
Proof.
  intro Hne. induction s as [|c r IH]; simpl; [reflexivity|].
  rewrite IH, orb_false_r.
  destruct (Ascii.eqb c a) eqn:E; [|assumption].
  apply Ascii.eqb_neq. congruence.
Qed.

Lemma replace_back a b s :
  contains b s = false -> replace b a (replace a b s) = s.
Proof.
  induction s as [|c r IH]; simpl; intro H; [reflexivity|].
  apply orb_false_iff in H. destruct H as [Hc Hr]. rewrite (IH Hr).
  destruct (Ascii.eqb c a) eqn:E.
  - rewrite Ascii.eqb_refl. apply Ascii.eqb_eq in E. congruence.
  - rewrite Hc. reflexivity.
Qed.

Lemma replace_length a b s : String.length (replace a b s) = String.length s.
Proof.
  induction s as [|c r IH]; simpl; congruence.
Qed.

(** X9: the documentation link is the base page followed by an anchor as
    long as the field path and free of dots; when no key of the path has
    a hyphen, turning the hyphens of the anchor back into dots gives the
    field path again. *)
Theorem docs_link_anchor field_path :
  exists anchor,
    _get_docs_link field_path
      = "platform/docs/configuration-reference.md#" ++ anchor /\
    contains "." anchor = false /\
    String.length anchor = String.length field_path /\
    (contains "-" field_path = false -> replace "-" "." anchor = field_path).
Proof.
  exists (replace "." "-" field_path). split; [reflexivity|]. split; [|split].
  - apply replace_removes. discriminate.
  - apply replace_length.
  - apply replace_back.
Qed.

Lemma docs_link_anchor_witness :
  exists anchor,
    _get_docs_link "components.backend.cpu"
      = "platform/docs/configuration-reference.md#" ++ anchor /\
    replace "-" "." anchor = "components.backend.cpu".
Proof.
  destruct (docs_link_anchor "components.backend.cpu") as (anchor & Hl & _ & _ & Hback).
  exists anchor. split; [exact Hl | exact (Hback eq_refl)].
Defined.

Lemma split_concat sep l :
  l <> [] ->
  Forall (fun s => contains sep s = false) l ->
  split sep (String.concat (String sep "") l) = l.
Proof.
  induction l as [|x l IH]; intros Hne Hall; [contradiction|].
  inversion Hall as [|? ? Hx Hl]; subst.
  destruct l as [|y r].
  - simpl. apply split_no_sep. assumption.
  - change (String.concat (String sep "") (x :: y :: r))
      with (x ++ String sep (String.concat (String sep "") (y :: r))).
    rewrite (split_app_sep _ _ _ Hx). f_equal. apply IH; [discriminate|assumption].
Qed.

Lemma string_of_uint_no_dot u : contains "." (NilEmpty.string_of_uint u) = false.
Proof.
  induction u; simpl; assumption || reflexivity.
Qed.

Lemma str_int_no_dot i : contains "." (str_int i) = false.
Proof.
  unfold str_int. destruct (Z.to_int i); simpl; apply string_of_uint_no_dot.
Qed.

(** X10: the field of a violation below the root can be split on its
    dots into the keys and indices of the path again, as long as no key
    has a dot in it. *)
Theorem field_path_round_trip e :
  path e <> [] ->
  Forall (fun i => match i with
                   | Key s => contains "." s = false
                   | Index _ => True
                   end) (path e) ->
  split "." (field_path_of e) = map str_item (path e).
Proof.
  intros Hne Hall. unfold field_path_of.
  destruct (path e) as [|i r] eqn:Hp; [contradiction|].
  apply split_concat; [discriminate|].
  apply Forall_map. eapply Forall_impl; [|exact Hall].
  intros [s|n] H; simpl; [assumption | apply str_int_no_dot].
Qed.

Lemma field_path_round_trip_witness :
  split "." (field_path_of nested_violation) = ["components"; "backend"; "cpu"].
Proof.
  apply (field_path_round_trip nested_violation).
  - discriminate.
  - repeat constructor.
Defined.

(** ** What a run reads of the world *)

Lemma check_dockerfile_ext w w' config app_dir comp default_dir missing :
  (forall q, exists_ w' q = exists_ w q) ->
  check_dockerfile w' config app_dir comp default_dir missing
  = check_dockerfile w config app_dir comp default_dir missing.
Proof.
  intro Hex. unfold check_dockerfile.
  destruct (component_get config comp "enabled" VNone); [simpl|reflexivity].
  destruct (truthy a); [|reflexivity].
  destruct (component_get config comp "directory" (VStr default_dir));
    [simpl|reflexivity].
  destruct (py_joinpath app_dir a0); [simpl|reflexivity].
  rewrite Hex. reflexivity.
Qed.

Lemma check_team_ext w w' config :
  script_file w' = script_file w ->
  set_order w' = set_order w ->
  fs w' (path_str (registry_path w)) = fs w (path_str (registry_path w)) ->
  check_team w' config = check_team w config.
Proof.
  intros Hscript Horder Hfs.
  assert (Hrp : registry_path w' = registry_path w).
  { unfold registry_path. rewrite Hscript. reflexivity. }
  unfold check_team, exists_, open_and_load. rewrite Hrp, Hfs, Horder. reflexivity.
Qed.

(** X11: [validate] reads the document and the registry and, of every
    other path, only whether it exists: two worlds with the same script
    location and set order, the same existing paths and the same document
    and registry give the same result, whatever their other files
    hold. *)
Theorem validate_reads_only self w w' p :
  script_file w' = script_file w ->
  set_order w' = set_order w ->
  (forall s, fs w' s = None <-> fs w s = None) ->
  fs w' (path_str p) = fs w (path_str p) ->
  fs w' (path_str (registry_path w)) = fs w (path_str (registry_path w)) ->
  validate self w' p = validate self w p.
Proof.
  intros Hscript Horder Hsame Hdoc Hreg.
  assert (Hex : forall q, exists_ w' q = exists_ w q).
  { intro q. unfold exists_. specialize (Hsame (path_str q)).
    destruct (fs w' (path_str q)), (fs w (path_str q)); try reflexivity.
    - destruct Hsame as [_ H]. discriminate (H eq_refl).
    - destruct Hsame as [H _]. discriminate (H eq_refl). }
  unfold validate, open_and_load. rewrite Hdoc.
  destruct (fs w (path_str p)) as [[|[msg|config]]|]; try reflexivity.
  destruct (jsonschema_validate self config); try reflexivity.
  unfold _custom_validations.
  rewrite !(check_dockerfile_ext w w') by assumption.
  rewrite (check_team_ext w w') by assumption.
  reflexivity.
Qed.

Lemma validate_reads_only_witness :
  validate accept_all dockerfile_directory_world sample_path
  = validate accept_all high_cpu_world sample_path.
Proof.
  apply (validate_reads_only accept_all high_cpu_world dockerfile_directory_world);
    try reflexivity.
  intro s. simpl.
  destruct (s =? "apps/pilot/testapp/backend/Dockerfile")%string eqn:E.
  - apply String.eqb_eq in E. subst s. simpl. split; discriminate.
  - split; intro H; exact H.
Defined.

(** ** Keys of a diagnostic *)




(** ** The command line *)

(** X13: without a path on the command line [main] prints the usage
    line and exits with status 1, before the schema is read or anything
    is validated; otherwise it prints the report for the path as
    [pathlib] normalises it, and the exit status is 0 when the report has
    no diagnostic and 1 when it has one. *)
Theorem main_exit_status construct w argv :
  ((List.length argv < 2)%nat -> main construct w argv = Ok (Usage, 1)) /\
  (forall out code,
      main construct w argv = Ok (out, code) ->
      (out = Usage <-> (List.length argv < 2)%nat) /\
      (forall v file errs,
          out = Report v file errs ->
          file = path_str (parse_path (nth 1 argv "")) /\
          (code = 0 <-> errs = []) /\
          (code = 1 <-> errs <> []) /\
          exists validator,
            construct = Ok validator /\
            validate validator w (parse_path (nth 1 argv "")) = Ok (v, errs))).
Proof.
  split.
  - destruct argv as [|script [|arg rest]]; simpl; intro H; try reflexivity. lia.
  - intros out code H.
    destruct argv as [|script [|arg rest]]; simpl in H.
    + inversion H; subst. split; [simpl; split; [lia | reflexivity]|].
      intros v file errs Hout. discriminate Hout.
    + inversion H; subst. split; [simpl; split; [lia | reflexivity]|].
      intros v file errs Hout. discriminate Hout.
    + inv_ok. destruct a0 as [is_valid errors]. inversion H; subst. split.
      * simpl. split; [discriminate | lia].
      * intros v file errs Hout. inversion Hout; subst. simpl.
        pose proof (is_valid_iff_no_diagnostic _ _ _ _ _ Ha0) as Hflag.
        split; [reflexivity|]. split; [|split].
        -- destruct v; split; intro Hc; try discriminate.
           ++ apply Hflag. reflexivity.
           ++ reflexivity.
           ++ apply Hflag in Hc. discriminate.
        -- destruct v; split; intro Hc; try reflexivity.
           ++ discriminate.
           ++ contradiction Hc. apply Hflag. reflexivity.
           ++ intro He. apply Hflag in He. discriminate.
        -- exists a. auto.
Qed.

Lemma main_exit_status_witness :
  main (Raise FileNotFoundError) high_cpu_world ["validate.py"] = Ok (Usage, 1) /\
  main (Ok accept_all) (no_dockerfile_world false)
       ["validate.py"; "./apps/pilot//testapp/app-config.yml"]
  = Ok (Report true "apps/pilot/testapp/app-config.yml" [], 0).
Proof.
  split.
  - apply (proj1 (main_exit_status (Raise FileNotFoundError) high_cpu_world
                    ["validate.py"])).
    simpl. lia.
  - reflexivity.
Defined.

(* ================================================================== *)
(** * Properties of the cost estimator *)

Module CostFacts.
Import CostEstimator.

Lemma obind_Done {A B : Type} (m : outcome A) (k : A -> outcome B) (b : B) :
  obind m k = Done b -> exists a, m = Done a /\ k a = Done b.
Proof.
  destruct m as [a|f]; simpl; intro H; [eauto | discriminate].
Qed.

Lemma obind_Fail {A B : Type} (m : outcome A) (k : A -> outcome B) (f : failure) :
  obind m k = Fail f -> m = Fail f \/ exists a, m = Done a /\ k a = Fail f.
Proof.
  destruct m as [a|g]; simpl; intro H;
    [right; eauto | left; inversion H; reflexivity].
Qed.

Lemma lift_Done {A : Type} (r : result A) (a : A) : lift r = Done a -> r = Ok a.
Proof.
  destruct r; simpl; intro H; inversion H; reflexivity.
Qed.

Lemma lift_Fail {A : Type} (r : result A) (f : failure) :
  lift r = Fail f -> exists e, r = Raise e /\ f = Py e.
Proof.
  destruct r; simpl; intro H; inversion H; eauto.
Qed.

Ltac inv_done :=
  repeat match goal with
  | H : obind _ _ = Done _ |- _ =>
      let a := fresh "a" in
      let Ha := fresh "Ha" in
      apply obind_Done in H; destruct H as (a & Ha & H)
  | H : lift _ = Done _ |- _ => apply lift_Done in H
  | H : Done _ = Done _ |- _ => inversion H; subst; clear H
  | H : Fail _ = Done _ |- _ => discriminate H
  end.

(** The same, leaving the final [Done _ = Done _] as it is. *)
Ltac inv_steps :=
  repeat match goal with
  | H : obind _ _ = Done _ |- _ =>
      let a := fresh "a" in
      let Ha := fresh "Ha" in
      apply obind_Done in H; destruct H as (a & Ha & H)
  | H : lift _ = Done _ |- _ => apply lift_Done in H
  end.

Ltac inv_fail :=
  repeat match goal with
  | H : obind _ _ = Fail _ |- _ =>
      let a := fresh "a" in
      let Ha := fresh "Ha" in
      apply obind_Fail in H; destruct H as [H | (a & Ha & H)]
  | H : Done _ = Fail _ |- _ => discriminate H
  | H : lift _ = Fail _ |- _ =>
      let e := fresh "e" in
      apply lift_Fail in H; destruct H as (e & H & ->)
  end.

(** ** Failures of [estimate] *)

Lemma float_of_int_Raise z e : float_of_int z = Raise e -> e = OverflowError.
Proof.
  unfold float_of_int. destruct (PrimFloat.is_infinity _); intro H;
    inversion H; reflexivity.
Qed.

Lemma py_mul_float_Raise v x e :
  py_mul_float v x = Raise e -> e = TypeError \/ e = OverflowError.
Proof.
  destruct v; simpl; intro H; try (inversion H; auto; fail).
  - inv_raise. right. eapply float_of_int_Raise; eassumption.
  - inv_raise. right. eapply float_of_int_Raise; eassumption.
Qed.

Lemma monthly_Raise v x e :
  monthly v x = Raise e -> e = TypeError \/ e = OverflowError.
Proof.
  unfold monthly. intro H. inv_raise. eapply py_mul_float_Raise; eassumption.
Qed.

Lemma py_div_pow2_Raise v k e :
  py_div_pow2 v k = Raise e -> e = TypeError \/ e = OverflowError.
Proof.
  destruct v; simpl; intro H; try (inversion H; auto; fail).
  destruct (PrimFloat.is_infinity _); inversion H; auto.
Qed.

Lemma as_text_Raise v e : as_text v = Raise e -> e = AttributeError.
Proof.
  destruct v; simpl; intro H; inversion H; reflexivity.
Qed.

(** The subscripts of a method succeed behind its guard. *)
Lemma guarded_items cfg comp enabled :
  component_get cfg comp "enabled" VNone = Ok enabled ->
  truthy enabled = true ->
  exists components c,
    py_getitem cfg "components" = Done (VDict components) /\
    py_getitem (VDict components) comp = Done (VDict c).
Proof.
  intros Hget Ht.
  destruct (component_get_present _ _ _ _ _ Hget) as (top & cs & c & -> & Hc & Hb & _).
  { intros ->. discriminate Ht. }
  exists cs, c. simpl. rewrite Hc, Hb. auto.
Qed.

Ltac shape_step :=
  match goal with
  | H : py_get _ _ _ = Raise _ |- _ =>
      apply py_get_Raise in H; subst; left; reflexivity
  | H : monthly _ _ = Raise _ |- _ =>
      apply monthly_Raise in H; destruct H; subst; red; auto
  | H : py_div_pow2 _ _ = Raise _ |- _ =>
      apply py_div_pow2_Raise in H; destruct H; subst; red; auto
  | H : as_text _ = Raise _ |- _ =>
      apply as_text_Raise in H; subst; left; reflexivity
  end.

Lemma estimate_backend_Fail self enabled f :
  component_get (config self) "backend" "enabled" VNone = Ok enabled ->
  truthy enabled = true ->
  _estimate_backend self = Fail f -> shape_error f.
Proof.
  intros Hget Ht H.
  destruct (guarded_items _ _ _ Hget Ht) as (cs & c & H1 & H2).
  unfold _estimate_backend in H. rewrite H1 in H. cbn [obind] in H.
  rewrite H2 in H. cbn [obind] in H. inv_fail; shape_step.
Qed.

Lemma estimate_frontend_Fail self enabled f :
  component_get (config self) "frontend" "enabled" VNone = Ok enabled ->
  truthy enabled = true ->
  _estimate_frontend self = Fail f -> shape_error f.
Proof.
  intros Hget Ht H.
  destruct (guarded_items _ _ _ Hget Ht) as (cs & c & H1 & H2).
  unfold _estimate_frontend in H. rewrite H1 in H. cbn [obind] in H.
  rewrite H2 in H. cbn [obind] in H. inv_fail; shape_step.
Qed.

Lemma estimate_database_Fail self enabled f :
  component_get (config self) "database" "enabled" VNone = Ok enabled ->
  truthy enabled = true ->
  _estimate_database self = Fail f -> shape_error f.
Proof.
  intros Hget Ht H.
  destruct (guarded_items _ _ _ Hget Ht) as (cs & c & H1 & H2).
  unfold _estimate_database in H. rewrite H1 in H. cbn [obind] in H.
  rewrite H2 in H. cbn [obind] in H. inv_fail; shape_step.
Qed.

Lemma when_enabled_Fail comp method self f :
  (forall enabled g,
      component_get (config self) comp "enabled" VNone = Ok enabled ->
      truthy enabled = true -> method self = Fail g -> shape_error g) ->
  when_enabled comp method self = Fail f -> shape_error f.
Proof.
  intros Hm H. unfold when_enabled in H. inv_fail.
  - apply component_get_Raise in H. subst. left. reflexivity.
  - apply lift_Done in Ha. destruct (truthy a) eqn:Ht; [|discriminate].
    eapply Hm; eassumption.
Qed.

Lemma estimate_Fail_shape py_sum self f :
  estimate py_sum self = Fail f -> shape_error f.
Proof.
  intro H. unfold estimate in H. inv_fail.
  - eapply when_enabled_Fail; [|eassumption]. intros en g.
    apply estimate_backend_Fail.
  - eapply when_enabled_Fail; [|eassumption]. intros en g.
    apply estimate_frontend_Fail.
  - eapply when_enabled_Fail; [|eassumption]. intros en g.
    apply estimate_database_Fail.
Qed.



(** ** The price of a database *)

Lemma pricing_of_tier db_type tier :
  (if is_postgresql db_type
   then pricing_get postgresql_pricing tier basic_pricing
   else pricing_get mysql_pricing tier basic_pricing)
  = if is_postgresql db_type && (tier =? "general_purpose")%string
    then general_purpose_pricing else basic_pricing.
Proof.
  unfold postgresql_pricing, mysql_pricing, pricing_get.
  rewrite (String.eqb_sym "general_purpose" tier).
  destruct (is_postgresql db_type); cbn [andb].
  - destruct (tier =? "general_purpose")%string eqn:E.
    + apply String.eqb_eq in E. subst tier. reflexivity.
    + destruct ("basic" =? tier)%string; reflexivity.
  - destruct ("basic" =? tier)%string; reflexivity.
Qed.

Lemma component_get_item cfg comp components c key default :
  py_getitem cfg "components" = Done components ->
  py_getitem components comp = Done c ->
  component_get cfg comp key default = py_get c key default.
Proof.
  intros H1 H2.
  destruct cfg as [| | | | | |top]; simpl in H1; try discriminate.
  destruct (lookup "components" top) as [v|] eqn:Hc; inversion H1; subst.
  destruct components as [| | | | | |cs]; simpl in H2; try discriminate.
  destruct (lookup comp cs) as [v|] eqn:Hb; inversion H2; subst.
  unfold component_get, py_get at 1 2, dict_get. simpl. rewrite Hc. simpl.
  rewrite Hb. reflexivity.
Qed.

(** X15: the database is billed [base + storage_mb / 1024 * 0.084] where
    the base is the general-purpose one (52.75) only for the type
    [postgresql] with a tier that reads [general_purpose] once lowered
    and with its blanks turned into underscores; every other type and
    tier, MySQL's general purpose included, is billed the basic base
    (21.10). *)
Theorem database_price self self' :
  _estimate_database self = Done self' ->
  exists db_type tier storage_mb storage_gb,
    component_get (config self) "database" "type" (VStr "postgresql") = Ok db_type /\
    component_get (config self) "database" "tier" (VStr "Basic") = Ok (VStr tier) /\
    component_get (config self) "database" "storage_mb" (VInt 32768) = Ok storage_mb /\
    py_div_pow2 storage_mb 10 = Ok storage_gb /\
    let general :=
      is_postgresql db_type
      && (replace " " "_" (lower tier) =? "general_purpose")%string in
    costs self' =
      assign "database"
        (PrimFloat.add
           (if general then 52.75%float else 0x1.519999999999ap+4%float)
           (PrimFloat.mul storage_gb 0x1.5810624dd2f1bp-4%float))
        (costs self).
Proof.
  unfold _estimate_database. intro H. inv_steps.
  rewrite pricing_of_tier in H. injection H as <-.
  exists a1, a3, a4, a5.
  rewrite !(component_get_item _ _ _ _ _ _ Ha Ha0).
  destruct a2; simpl in Ha3; try discriminate. injection Ha3 as ->.
  repeat (split; [assumption|]).
  cbv zeta. unfold record, costs.
  destruct (is_postgresql a1 && _); reflexivity.
Qed.

Lemma database_price_witness :
  exists db_type tier storage_mb storage_gb,
    component_get (database_config "mysql" "General Purpose")
      "database" "type" (VStr "postgresql") = Ok db_type /\
    component_get (database_config "mysql" "General Purpose")
      "database" "tier" (VStr "Basic") = Ok (VStr tier) /\
    component_get (database_config "mysql" "General Purpose")
      "database" "storage_mb" (VInt 32768) = Ok storage_mb /\
    py_div_pow2 storage_mb 10 = Ok storage_gb /\
    [("database", 0x1.7c9ba5e353f7dp+4%float)] =    (* 23.788 *)
      assign "database"
        (PrimFloat.add
           (if is_postgresql db_type
               && (replace " " "_" (lower tier) =? "general_purpose")%string
            then 52.75%float else 0x1.519999999999ap+4%float)
           (PrimFloat.mul storage_gb 0x1.5810624dd2f1bp-4%float))
        [].
Proof.
  exact (database_price (new (database_config "mysql" "General Purpose")) _ eq_refl).
Defined.

(** ** The report and the command line *)

Lemma report_Fail py_sum self f :
  generate_markdown_report py_sum self = Fail f ->
  estimate py_sum self = Fail f \/
  (f = ZeroDivisionError /\
   exists self' result,
     estimate py_sum self = Done (self', result) /\
     PrimFloat.eqb (total result) 0%float = true).
Proof.
  unfold generate_markdown_report. intro H.
  apply obind_Fail in H. destruct H as [H | ([self' result] & Hest & H)];
    [left; assumption|].
  right. unfold py_div_200 in H.
  destruct (PrimFloat.eqb (total result) 0%float) eqn:E; simpl in H.
  - inversion H. eauto.
  - discriminate.
Qed.

(** X16: the report raises [ZeroDivisionError] exactly when [estimate]
    succeeded and the total it returned is zero (the months covered by
    the free credits are [200 / total]). *)
Theorem report_zero_total py_sum self :
  generate_markdown_report py_sum self = Fail ZeroDivisionError <->
  exists self' result,
    estimate py_sum self = Done (self', result) /\
    PrimFloat.eqb (total result) 0%float = true.
Proof.
  split.
  - intro H. destruct (report_Fail _ _ _ H) as [Hest | (_ & Hex)]; [|assumption].
    destruct (estimate_Fail_shape _ _ _ Hest) as [Hs|[Hs|Hs]]; discriminate Hs.
  - intros (self' & result & Hest & Hzero).
    unfold generate_markdown_report. rewrite Hest. cbn [obind].
    unfold py_div_200. rewrite Hzero. reflexivity.
Qed.

Lemma report_zero_total_witness :
  generate_markdown_report sum_in_order (new cancelling_config)
  = Fail ZeroDivisionError.
Proof.
  apply (proj2 (report_zero_total sum_in_order (new cancelling_config))).
  eexists. eexists. split; reflexivity.
Defined.



(** ** What [estimate] writes *)

(** Destructs the steps of a method one after the other. *)
Ltac step_through :=
  repeat match goal with
  | |- context [obind ?m _] =>
      destruct m; cbn [obind];
      [ | solve [right; eexists; split; reflexivity] ]
  end.

Lemma estimate_backend_entry self s :
  config s = config self ->
  (exists x e,
      cost e = x /\
      _estimate_backend self = Done (record self "backend" x e) /\
      _estimate_backend s = Done (record s "backend" x e)) \/
  (exists f, _estimate_backend self = Fail f /\ _estimate_backend s = Fail f).
Proof.
  intro Hc. unfold _estimate_backend. rewrite Hc. step_through.
  left. eexists. eexists. split; [|split; reflexivity]. reflexivity.
Qed.

Lemma estimate_frontend_entry self s :
  config s = config self ->
  (exists x e,
      cost e = x /\
      _estimate_frontend self = Done (record self "frontend" x e) /\
      _estimate_frontend s = Done (record s "frontend" x e)) \/
  (exists f, _estimate_frontend self = Fail f /\ _estimate_frontend s = Fail f).
Proof.
  intro Hc. unfold _estimate_frontend. rewrite Hc. step_through.
  left. eexists. eexists. split; [|split; reflexivity]. reflexivity.
Qed.

Lemma estimate_database_entry self s :
  config s = config self ->
  (exists x e,
      cost e = x /\
      _estimate_database self = Done (record self "database" x e) /\
      _estimate_database s = Done (record s "database" x e)) \/
  (exists f, _estimate_database self = Fail f /\ _estimate_database s = Fail f).
Proof.
  intro Hc. unfold _estimate_database. rewrite Hc. step_through.
  left. eexists. eexists. split; [|split; reflexivity]. reflexivity.
Qed.

Lemma apply_entries_config es s : config (apply_entries es s) = config s.
Proof.
  revert s. induction es as [|en es IH]; simpl; intro s; [reflexivity|].
  rewrite IH. reflexivity.
Qed.

Lemma apply_entries_app es1 es2 s :
  apply_entries (es1 ++ es2) s = apply_entries es2 (apply_entries es1 s).
Proof.
  unfold apply_entries. apply fold_left_app.
Qed.

Lemma apply_entries_explanations es s :
  explanations (apply_entries es s) = (explanations s ++ map snd es)%list.
Proof.
  revert s. induction es as [|en es IH]; simpl; intro s.
  - rewrite app_nil_r. reflexivity.
  - rewrite IH. simpl. rewrite <- app_assoc. reflexivity.
Qed.

(** A guarded method writes one entry under its key when the component is
    enabled and nothing otherwise, the same in every state that has the
    same document. *)
Lemma when_enabled_entries comp key method self self' :
  (forall t s, config s = config t ->
     (exists x e, cost e = x /\
                  method t = Done (record t key x e) /\
                  method s = Done (record s key x e)) \/
     (exists f, method t = Fail f /\ method s = Fail f)) ->
  when_enabled comp method self = Done self' ->
  exists es : list entry,
    self' = apply_entries es self /\
    map (fun en : entry => fst (fst en)) es
      = (if is_enabled (config self) comp then [key] else []) /\
    Forall (fun en : entry => cost (snd en) = snd (fst en)) es /\
    forall s, config s = config self ->
              when_enabled comp method s = Done (apply_entries es s).
Proof.
  intros Hm H. unfold when_enabled, is_enabled in *.
  destruct (component_get (config self) comp "enabled" VNone) as [en|x] eqn:Hg;
    [|discriminate].
  cbn [lift obind] in H. destruct (truthy en) eqn:Ht.
  - destruct (Hm self self eq_refl) as [(x & e & Hcost & Hself & _) | (f & Hf & _)];
      [|congruence].
    rewrite Hself in H. injection H as <-.
    exists [(key, x, e)]. split; [reflexivity|]. split; [reflexivity|].
    split; [repeat constructor; assumption|].
    intros s Hc. rewrite Hc, Hg. cbn [lift obind]. rewrite Ht.
    destruct (Hm self s Hc) as [(x' & e' & _ & Hself' & Hs) | (f & Hf & _)];
      [|congruence].
    assert (Hr : record self key x e = record self key x' e') by congruence.
    rewrite Hs.
    pose proof (f_equal costs Hr) as Hx. pose proof (f_equal explanations Hr) as He.
    cbn [record costs explanations] in Hx, He.
    apply app_inj_tail in He. destruct He as [_ <-].
    assert (x' = x).
    { clear - Hx. revert Hx. generalize (costs self).
      induction l as [|[k y] l IH]; simpl; intro H.
      - injection H as ->. reflexivity.
      - destruct (k =? key)%string.
        + injection H as ->. reflexivity.
        + injection H as H. apply IH. assumption. }
    subst x'. reflexivity.
  - injection H as <-. exists []. split; [reflexivity|]. split; [reflexivity|].
    split; [constructor|].
    intros s Hc. rewrite Hc, Hg. cbn [lift obind]. rewrite Ht. reflexivity.
Qed.

(** [estimate] writes the entry of the registry and then that of each
    enabled component, the same in every state with the same document. *)
Lemma estimate_entries py_sum self self' result :
  estimate py_sum self = Done (self', result) ->
  exists es : list entry,
    self' = apply_entries es self /\
    result = result_of py_sum self' /\
    map (fun en : entry => fst (fst en)) es
      = "acr" :: filter (is_enabled (config self)) ["backend"; "frontend"; "database"] /\
    Forall (fun en : entry => cost (snd en) = snd (fst en)) es /\
    hd_error es = Some ("acr", container_registry_basic,
                        acr_explanation container_registry_basic) /\
    forall s, config s = config self ->
              estimate py_sum s
              = Done (apply_entries es s, result_of py_sum (apply_entries es s)).
Proof.
  unfold estimate. intro H. inv_steps. injection H as <- <-.
  set (acr := ("acr", container_registry_basic,
               acr_explanation container_registry_basic) : entry).
  change (_estimate_acr self) with (apply_entries [acr] self) in Ha.
  apply (when_enabled_entries _ "backend") in Ha;
    [|intros; apply estimate_backend_entry; assumption].
  destruct Ha as (e1 & -> & Hk1 & Hc1 & Hs1).
  apply (when_enabled_entries _ "frontend") in Ha0;
    [|intros; apply estimate_frontend_entry; assumption].
  destruct Ha0 as (e2 & -> & Hk2 & Hc2 & Hs2).
  apply (when_enabled_entries _ "database") in Ha1;
    [|intros; apply estimate_database_entry; assumption].
  destruct Ha1 as (e3 & -> & Hk3 & Hc3 & Hs3).
  rewrite !apply_entries_config in *.
  exists ([acr] ++ e1 ++ e2 ++ e3)%list.
  rewrite !apply_entries_app. split; [reflexivity|]. split; [reflexivity|].
  split; [|split; [|split]].
  - rewrite !map_app, Hk1, Hk2, Hk3. simpl.
    destruct (is_enabled (config self) "backend"),
             (is_enabled (config self) "frontend"),
             (is_enabled (config self) "database"); reflexivity.
  - repeat (apply Forall_app; split); try assumption.
    repeat constructor.
  - reflexivity.
  - intros s Hc.
    change (_estimate_acr s) with (apply_entries [acr] s).
    rewrite (Hs1 (apply_entries [acr] s))
      by (rewrite !apply_entries_config; assumption).
    cbn [obind].
    rewrite (Hs2 (apply_entries e1 (apply_entries [acr] s)))
      by (rewrite !apply_entries_config; assumption).
    cbn [obind].
    rewrite (Hs3 (apply_entries e2 (apply_entries e1 (apply_entries [acr] s))))
      by (rewrite !apply_entries_config; assumption).
    cbn [obind]. rewrite !apply_entries_app. reflexivity.
Qed.

Lemma assign_fresh k x d :
  ~ In k (map fst d) -> assign k x d = (d ++ [(k, x)])%list.
Proof.
  induction d as [|[k' y] d IH]; simpl; intro H; [reflexivity|].
  destruct (k' =? k)%string eqn:E.
  - apply String.eqb_eq in E. subst. contradiction H. auto.
  - rewrite IH; [reflexivity|]. intro Hin. apply H. auto.
Qed.

Lemma assign_same k x d :
  NoDup (map fst d) -> In (k, x) d -> assign k x d = d.
Proof.
  induction d as [|[k' y] d IH]; simpl; intros Hnd Hin; [contradiction|].
  inversion Hnd as [|? ? Hnotin Hnd']; subst.
  destruct (k' =? k)%string eqn:E.
  - apply String.eqb_eq in E. subst k'. destruct Hin as [Heq|Hin].
    + congruence.
    + contradiction Hnotin. apply (in_map fst) in Hin. exact Hin.
  - destruct Hin as [Heq|Hin].
    + injection Heq as -> ->. rewrite String.eqb_refl in E. discriminate.
    + rewrite (IH Hnd' Hin). reflexivity.
Qed.

(** Entries under fresh keys are appended to [costs]. *)
Lemma apply_entries_costs_fresh (es : list entry) s :
  NoDup (map fst (costs s) ++ map (fun en : entry => fst (fst en)) es) ->
  costs (apply_entries es s) = (costs s ++ map fst es)%list.
Proof.
  revert s. induction es as [|[[k x] e] es IH]; simpl; intros s Hnd.
  - rewrite app_nil_r. reflexivity.
  - assert (Hk : ~ In k (map fst (costs s))).
    { intro Hin. apply NoDup_remove_2 in Hnd. apply Hnd.
      apply in_or_app. auto. }
    rewrite IH.
    + unfold apply_entry. cbn [record costs fst snd].
      rewrite (assign_fresh _ _ _ Hk), <- app_assoc. reflexivity.
    + unfold apply_entry. cbn [record costs fst snd].
      rewrite (assign_fresh _ _ _ Hk), map_app. simpl.
      rewrite <- app_assoc. simpl.
      apply NoDup_remove in Hnd. destruct Hnd as [Hnd Hnot].
      replace (map fst (costs s) ++ k :: map (fun en : entry => fst (fst en)) es)%list
        with ((map fst (costs s) ++ [k])
              ++ map (fun en : entry => fst (fst en)) es)%list
        by (rewrite <- app_assoc; reflexivity).
      apply (Permutation_NoDup (l := k :: map fst (costs s)
                                       ++ map (fun en : entry => fst (fst en)) es)).
      * rewrite <- app_assoc. apply Permutation_middle.
      * constructor; assumption.
Qed.

(** Entries that [costs] already holds leave it as it is. *)
Lemma apply_entries_costs_same (es : list entry) s :
  NoDup (map fst (costs s)) ->
  (forall en, In en es -> In (fst en) (costs s)) ->
  costs (apply_entries es s) = costs s.
Proof.
  revert s. induction es as [|[[k x] e] es IH]; simpl; intros s Hnd Hin;
    [reflexivity|].
  assert (Hs : costs (apply_entry s (k, x, e)) = costs s).
  { unfold apply_entry. cbn [record costs fst snd].
    apply assign_same; [assumption|]. apply (Hin (k, x, e)). auto. }
  rewrite IH; rewrite Hs; auto.
Qed.

Lemma keys_NoDup cfg :
  NoDup ("acr" :: filter (is_enabled cfg) ["backend"; "frontend"; "database"]).
Proof.
  constructor.
  - intro Hin. apply filter_In in Hin. destruct Hin as [[H|[H|[H|[]]]] _];
      discriminate H.
  - apply NoDup_filter. repeat constructor; simpl; intuition discriminate.
Qed.

(** X18: on a new estimator [estimate] returns a breakdown whose keys are
    [acr] (the registry, 4.22) followed by those of [backend],
    [frontend], [database] whose [enabled] is truthy, in this order; the
    explanations go with the keys one to one, each with the cost of its
    key; and the total is the sum of the values of the breakdown. *)
Theorem estimate_breakdown py_sum cfg self' result :
  estimate py_sum (new cfg) = Done (self', result) ->
  map fst (breakdown_of result)
    = "acr" :: filter (is_enabled cfg) ["backend"; "frontend"; "database"] /\
  hd_error (breakdown_of result) = Some ("acr", 0x1.0e147ae147ae1p+2%float) /\
  map cost (explanations_of result) = map snd (breakdown_of result) /\
  total result = py_sum (map snd (breakdown_of result)).
Proof.
  intro H. destruct (estimate_entries _ _ _ _ H)
    as (es & -> & -> & Hkeys & Hcost & Hhd & _).
  assert (Hk : map (fun en : entry => fst (fst en)) es
               = "acr" :: filter (is_enabled cfg) ["backend"; "frontend"; "database"])
    by exact Hkeys.
  clear Hkeys.
  assert (Hc : costs (apply_entries es (new cfg)) = map fst es).
  { rewrite apply_entries_costs_fresh; [reflexivity|].
    change (NoDup (map (fun en : entry => fst (fst en)) es)).
    rewrite Hk. apply keys_NoDup. }
  unfold result_of. cbn [breakdown_of explanations_of total].
  rewrite Hc, apply_entries_explanations. cbn [explanations new app].
  split; [|split; [|split]].
  - rewrite map_map. exact Hk.
  - destruct es as [|en es]; [discriminate|]. injection Hhd as ->. reflexivity.
  - rewrite !map_map. apply map_ext_Forall. exact Hcost.
  - reflexivity.
Qed.

Lemma estimate_breakdown_witness :
  map fst [("acr", 0x1.0e147ae147ae1p+2%float);
           ("database", 0x1.7c9ba5e353f7dp+4%float)]
    = "acr" :: filter (is_enabled (database_config "mysql" "General Purpose"))
                 ["backend"; "frontend"; "database"].
Proof.
  exact (proj1 (estimate_breakdown sum_in_order
                  (database_config "mysql" "General Purpose") _ _ eq_refl)).
Defined.

(** X19: calling [estimate] a second time on the same estimator returns
    the same breakdown and total, and every explanation twice: [costs] is
    overwritten key by key, [explanations] is appended to. *)
Theorem estimate_twice py_sum cfg self1 result1 :
  estimate py_sum (new cfg) = Done (self1, result1) ->
  exists self2 result2,
    estimate py_sum self1 = Done (self2, result2) /\
    breakdown_of result2 = breakdown_of result1 /\
    total result2 = total result1 /\
    explanations_of result2
      = (explanations_of result1 ++ explanations_of result1)%list.
Proof.
  intro H. destruct (estimate_entries _ _ _ _ H)
    as (es & -> & -> & Hkeys & _ & _ & Hagain).
  assert (Hk : map (fun en : entry => fst (fst en)) es
               = "acr" :: filter (is_enabled cfg) ["backend"; "frontend"; "database"])
    by exact Hkeys.
  clear Hkeys.
  assert (Hc : costs (apply_entries es (new cfg)) = map fst es).
  { rewrite apply_entries_costs_fresh; [reflexivity|].
    change (NoDup (map (fun en : entry => fst (fst en)) es)).
    rewrite Hk. apply keys_NoDup. }
  assert (Hc2 : costs (apply_entries es (apply_entries es (new cfg)))
                = costs (apply_entries es (new cfg))).
  { apply apply_entries_costs_same.
    - rewrite Hc, map_map.
      change (NoDup (map (fun en : entry => fst (fst en)) es)).
      rewrite Hk. apply keys_NoDup.
    - intros en Hin. rewrite Hc. apply in_map. assumption. }
  eexists. eexists. split.
  - apply Hagain. apply apply_entries_config.
  - unfold result_of. cbn [breakdown_of explanations_of total].
    rewrite Hc2. split; [reflexivity|]. split; [reflexivity|].
    rewrite !apply_entries_explanations. cbn [explanations new app]. reflexivity.
Qed.

Lemma estimate_twice_witness :
  exists self2 result2,
    estimate sum_in_order
      (apply_entries
         [("acr", container_registry_basic, acr_explanation container_registry_basic)]
         (new bare_config))
    = Done (self2, result2) /\
    breakdown_of result2 = [("acr", container_registry_basic)] /\
    total result2 = 0x1.0e147ae147ae1p+2%float /\
    explanations_of result2
      = [acr_explanation container_registry_basic;
         acr_explanation container_registry_basic].
Proof.
  exact (estimate_twice sum_in_order bare_config _ _ eq_refl).
Defined.

End CostFacts.
